(** * coco-neo4j-backup: the backup coordination pipeline

    A shallow embedding of [fleet.go] and of the orchestrator ([main],
    [runOuter], [runInner], [newBucketWriter], [uploadToS3]).

    The Go code is a straight-line sequence of calls into collaborators
    (the fleet scheduler, the rsync wrapper, the tar/gzip streamer, the S3
    writer, the logger, the clock).  Each such call is an effect: the
    functions of the repository are embedded as programs over a signature
    of calls, and a program is run against an oracle that plays the outside
    world and may answer every call in any way its Go type allows.  A run
    yields what the function returned (or the exit status, if the process
    was terminated) and the chronological trace of calls with their
    answers.  "For every run" is "for every oracle". *)

From Stdlib Require Import String Ascii List ZArith Lia Bool.
Import ListNotations.
Local Open Scope string_scope.
Local Open Scope list_scope.
Local Open Scope Z_scope.

Set Implicit Arguments.

(** ** Go values *)

(** A Go [error]: [None] is [nil], [Some msg] a non-nil error with its
    [Error()] text. *)
Definition error := option string.

Definition errors_New (msg : string) : error := Some msg.

(** [schema.UnitState] of the fleet client library. *)
Record UnitState := mkUnitState {
  Hash : string;
  MachineID : string;
  Name : string;
  SystemdActiveState : string;
  SystemdLoadState : string;
  SystemdSubState : string
}.

(** Handles of the objects the pipeline passes around.  The objects live
    in the outside world; the code only hands them back to it.  Handle 0
    stands for Go's [nil]. *)
Definition fleetAPI := nat.
Definition WriteCloser := nat.
Definition PipeReader := nat.
Definition Dialer := nat.
Definition URL := string.

(** [time.Time], as the calendar fields [Date] and [Clock] report for it
    in UTC. *)
Record Time := mkTime {
  Year : Z;
  Month : Z;
  Day : Z;
  Hour : Z;
  Minute : Z;
  Second : Z
}.

(** [net.Dialer] and [http.Transport], with the fields [newFleetClient]
    sets (durations in seconds). *)
Record NetDialer := mkNetDialer {
  Timeout : Z;
  KeepAlive : Z
}.

Record Transport := mkTransport {
  ProxyFromEnvironment : bool;
  Dial : option Dialer;
  TLSHandshakeTimeout : Z;
  MaxIdleConnsPerHost : Z
}.

Record httpClient := mkHttpClient { transport : Transport }.

Record config := mkConfig {
  fleetEndpoint : string;
  socksProxy : string;
  awsAccessKey : string;
  awsSecretKey : string;
  dataFolder : string;
  targetFolder : string;
  s3Domain : string;
  bucketName : string;
  env : string
}.

(** ** Logging *)

Inductive level := Info | Warn | Error | Fatal.

(** Values attached to a log entry ([log.Fields], or the arguments of a
    Printf-style call under the keys ["0"], ["1"], ...). *)
Inductive value :=
| VStr (s : string)
| VBool (b : bool)
| VErr (e : error)
| VInt (n : Z)
| VTime (t : Time).

Definition Fields := list (string * value).

(** ** Calls into the outside world *)

Inductive Call : Type -> Type :=
| UrlParse (rawurl : string) : Call (URL * error)
| ProxySOCKS5 (network addr : string) (forward : NetDialer) : Call (Dialer * error)
| NewHTTPClient (c : httpClient) (u : URL) : Call (fleetAPI * error)
| UnitStates (fc : fleetAPI) : Call (list UnitState * error)
| SetUnitTargetState (fc : fleetAPI) (name target : string) : Call error
| Rsync (src dst : string) : Call error
| CreateBackup (dir archiveName : string) : Call (PipeReader * error)
| GetWriter (accessKey secretKey domain bucket archiveName : string)
    : Call (WriteCloser * error)
| IoCopy (dst : WriteCloser) (src : PipeReader) : Call (Z * error)
| WriterClose (w : WriteCloser) : Call error
| ReaderClose (r : PipeReader) : Call error
| ValidateEnvironment : Call unit
| TimeNow : Call Time
| TimeSince (t : Time) : Call Z
| CliContext : Call (option config)
| Log (lvl : level) (msg : string) (fields : Fields) : Call unit.

(** One entry of a trace: a call together with the answer it got, or the
    termination of the process. *)
Inductive event :=
| EvUrlParse (rawurl : string) (res : URL * error)
| EvProxySOCKS5 (network addr : string) (forward : NetDialer) (res : Dialer * error)
| EvNewHTTPClient (c : httpClient) (u : URL) (res : fleetAPI * error)
| EvUnitStates (fc : fleetAPI) (res : list UnitState * error)
| EvSetUnitTargetState (fc : fleetAPI) (name target : string) (res : error)
| EvRsync (src dst : string) (res : error)
| EvCreateBackup (dir archiveName : string) (res : PipeReader * error)
| EvGetWriter (accessKey secretKey domain bucket archiveName : string)
    (res : WriteCloser * error)
| EvIoCopy (dst : WriteCloser) (src : PipeReader) (res : Z * error)
| EvWriterClose (w : WriteCloser) (res : error)
| EvReaderClose (r : PipeReader) (res : error)
| EvValidateEnvironment
| EvTimeNow (res : Time)
| EvTimeSince (t : Time) (res : Z)
| EvCliContext (res : option config)
| EvLog (lvl : level) (msg : string) (fields : Fields)
| EvExit (code : Z).

Definition record {X} (c : Call X) : X -> event :=
  match c in Call X return X -> event with
  | UrlParse s => EvUrlParse s
  | ProxySOCKS5 n a f => EvProxySOCKS5 n a f
  | NewHTTPClient c u => EvNewHTTPClient c u
  | UnitStates fc => EvUnitStates fc
  | SetUnitTargetState fc n t => EvSetUnitTargetState fc n t
  | Rsync s d => EvRsync s d
  | CreateBackup d a => EvCreateBackup d a
  | GetWriter k s d b a => EvGetWriter k s d b a
  | IoCopy w r => EvIoCopy w r
  | WriterClose w => EvWriterClose w
  | ReaderClose r => EvReaderClose r
  | ValidateEnvironment => fun _ => EvValidateEnvironment
  | TimeNow => EvTimeNow
  | TimeSince t => EvTimeSince t
  | CliContext => EvCliContext
  | Log l m f => fun _ => EvLog l m f
  end.

Definition trace := list event.

(** ** Programs *)

(** A program either returns, performs a call and continues with its
    answer, or terminates the process ([os.Exit]). *)
Inductive prog (R : Type) : Type :=
| Ret (r : R)
| Vis (X : Type) (c : Call X) (k : X -> prog R)
| Exit (code : Z).

Arguments Ret {R} r.
Arguments Vis {R X} c k.
Arguments Exit {R} code.

Fixpoint bind {A B} (p : prog A) (f : A -> prog B) : prog B :=
  match p with
  | Ret a => f a
  | Vis c k => Vis c (fun x => bind (k x) f)
  | Exit code => Exit code
  end.

Definition call {X} (c : Call X) : prog X := Vis c Ret.

Declare Scope prog_scope.
Delimit Scope prog_scope with prog.
Notation "x <- p ;; q" := (bind p (fun x => q))
  (at level 61, p at next level, right associativity) : prog_scope.
Notation "' pat <- p ;; q" := (bind p (fun x => match x with pat => q end))
  (at level 61, pat pattern, p at next level, right associativity) : prog_scope.
Notation "p ;; q" := (bind p (fun _ => q))
  (at level 61, right associativity) : prog_scope.
Local Open Scope prog_scope.

(** ** Runs *)

Inductive outcome (R : Type) : Type :=
| Returned (r : R)
| Exited (code : Z).

Arguments Returned {R} r.
Arguments Exited {R} code.

(** The outside world: given what has happened so far, the answer to the
    next call. *)
Definition oracle := forall X, trace -> Call X -> X.

Fixpoint run {R} (p : prog R) (o : oracle) (h : trace) : outcome R * trace :=
  match p with
  | Ret r => (Returned r, h)
  | Vis c k => run (k (o _ h c)) o (h ++ [record c (o _ h c)])
  | Exit code => (Exited code, h ++ [EvExit code])
  end.

(** ** fleet.go *)

Definition logWith (lvl : level) (fields : Fields) (msg : string) : prog unit :=
  call (Log lvl msg fields).

Definition logMsg (lvl : level) (msg : string) : prog unit :=
  call (Log lvl msg []).

Definition newFleetClient (fleetEndpoint socksProxy : string)
  : prog (fleetAPI * error) :=
  '(u, err) <- call (UrlParse fleetEndpoint) ;;
  match err with
  | Some _ => Ret (0%nat, err)
  | None =>
    let httpClient0 := mkHttpClient (mkTransport false None 0 100) in
    httpClient1 <-
      (if String.eqb socksProxy EmptyString then Ret httpClient0
       else
         logWith Info [("0", VStr socksProxy)] "using SOCKS proxy %s\n" ;;
         let netDialler := mkNetDialer 30 30 in
         '(dialer, err2) <- call (ProxySOCKS5 "tcp" socksProxy netDialler) ;;
         match err2 with
         | Some _ =>
           logWith Fatal [("0", VStr socksProxy); ("1", VErr err2)]
                   "error with proxy %s: %v\n" ;;
           Exit 1
         | None => Ret (mkHttpClient (mkTransport true (Some dialer) 10 100))
         end) ;;
    logWith Info [("url", VStr u)] "Connecting to fleet API." ;;
    '(fleetHTTPAPIClient, err) <- call (NewHTTPClient httpClient1 u) ;;
    match err with
    | Some _ => Ret (0%nat, err)
    | None =>
      logWith Info [("url", VStr u)]
              "Connection successfully established to fleet API." ;;
      Ret (fleetHTTPAPIClient, err)
    end
  end.

Definition setTargetState (fleetClient : fleetAPI) (serviceName targetState : string)
  : prog error :=
  err <- call (SetUnitTargetState fleetClient serviceName targetState) ;;
  match err with
  | Some _ =>
    logWith Error [("err", VErr err); ("targetState", VStr targetState);
                   ("serviceName", VStr serviceName)]
            "Problem setting unit target state!"
  | None =>
    logWith Info [("err", VErr err); ("targetState", VStr targetState);
                  ("serviceName", VStr serviceName)]
            "Set unit target state successfully."
  end ;;
  Ret err.

(** The [for index, each := range unitStates] loop of [isServiceActive]:
    it stops at the first unit named [serviceName] and yields the final
    values of [found] and [isActive]. *)
Fixpoint scanUnits (serviceName : string) (index : nat) (unitStates : list UnitState)
  : prog (bool * bool) :=
  match unitStates with
  | [] => Ret (false, false)
  | each :: rest =>
    if String.eqb (Name each) serviceName then
      logWith Info [("index", VInt (Z.of_nat index)); ("name", VStr (Name each));
                    ("SystemdActiveState", VStr (SystemdActiveState each));
                    ("SystemdLoadState", VStr (SystemdLoadState each))]
              "Processing service." ;;
      if String.eqb (SystemdActiveState each) "active"
      then Ret (true, true)
      else Ret (true, false)
    else scanUnits serviceName (S index) rest
  end.

Definition isServiceActive (fleetClient : fleetAPI) (serviceName : string)
  : prog (bool * error) :=
  '(unitStates, err) <- call (UnitStates fleetClient) ;;
  match err with
  | Some _ =>
    logMsg Error
      "Could not retrieve list of units from fleet API, do you need to start a SOCKS proxy?" ;;
    Ret (false, err)
  | None =>
    logWith Info [("num", VInt (Z.of_nat (length unitStates)))]
            "Retrieved services from fleet API." ;;
    '(found, isActive) <- scanUnits serviceName 0 unitStates ;;
    (if negb found then
       logWith Warn [("serviceName", VStr serviceName)]
         "Could not find service in list of services, assuming the service is inactive."
     else Ret tt) ;;
    Ret (isActive, err)
  end.

Definition deployerProblem : string :=
  "Problem: either the deployer is still active, or there was a problem checking its status.
We cannot complete the backup process in case neo4j is accidentally started up again during backup creation.".

Definition shutDownNeo (fleetClient : fleetAPI) : prog error :=
  let deployerServiceName := "deployer.service" in
  '(isDeployerActive, err) <- isServiceActive fleetClient deployerServiceName ;;
  if isDeployerActive || (match err with Some _ => true | None => false end) then
    logWith Error [("deployerServiceName", VStr deployerServiceName);
                   ("isDeployerActive", VBool isDeployerActive);
                   ("err", VErr err)]
            deployerProblem ;;
    match err with
    | Some _ => Ret err
    | None => Ret (errors_New deployerProblem)
    end
  else
    let serviceName := "neo4j-red@1.service" in
    err <- setTargetState fleetClient serviceName "inactive" ;;
    Ret err.

Definition startNeo (fleetClient : fleetAPI) : prog error :=
  logMsg Info "Starting up neo4j..." ;;
  let serviceName := "neo4j-red@1.service" in
  setTargetState fleetClient serviceName "launched" ;;
  Ret None.

(** ** Package time: the part of [Time.Format] the archive name uses *)

Definition digit (d : Z) : ascii := ascii_of_nat (48 + Z.to_nat d).

(** The digit loop of [appendInt]: decimal digits of [u], most significant
    first, assembled from the least significant one.  [fuel] is the size of
    the loop's buffer. *)
Fixpoint decimal (fuel : nat) (u : Z) (acc : string) : string :=
  match fuel with
  | O => acc
  | S fuel' =>
    if 10 <=? u
    then decimal fuel' (u / 10) (String (digit (u mod 10)) acc)
    else String (digit u) acc
  end.

Fixpoint zeros (n : nat) : string :=
  match n with
  | O => EmptyString
  | S n' => String "0" (zeros n')
  end.

(** [appendInt(b, x, width)]: [x] in decimal, padded with zeros to
    [width] digits, after a minus sign when negative. *)
Definition appendInt (x : Z) (width : nat) : string :=
  let u := Z.abs x in
  let ds := decimal 20 u EmptyString in
  (if x <? 0 then "-" else EmptyString) ++ zeros (width - String.length ds) ++ ds.

(** The reference-time tokens of a layout that begin with a digit or with
    ['-'].  (The tokens beginning with a letter, ['_'], ['.'] or [','] are
    names, zone abbreviations and fractions of a second; no character of
    [archiveNameDateFormat] starts one.) *)
Inductive stdChunk :=
| stdLongYear | stdYear
| stdZeroMonth | stdNumMonth
| stdZeroDay | stdDay
| stdHour | stdZeroHour12 | stdHour12
| stdZeroMinute | stdMinute
| stdZeroSecond | stdSecond
| stdNumSecondsTz | stdNumColonSecondsTZ | stdNumTZ | stdNumColonTZ | stdNumShortTZ.

(** [nextStdChunk], at the head of [layout]: the token there and its
    length, if there is one. *)
Definition nextStdChunk (layout : string) : option (stdChunk * nat) :=
  match layout with
  | String "0" (String "1" _) => Some (stdZeroMonth, 2%nat)
  | String "0" (String "2" _) => Some (stdZeroDay, 2%nat)
  | String "0" (String "3" _) => Some (stdZeroHour12, 2%nat)
  | String "0" (String "4" _) => Some (stdZeroMinute, 2%nat)
  | String "0" (String "5" _) => Some (stdZeroSecond, 2%nat)
  | String "0" (String "6" _) => Some (stdYear, 2%nat)
  | String "1" (String "5" _) => Some (stdHour, 2%nat)
  | String "1" _ => Some (stdNumMonth, 1%nat)
  | String "2" _ =>
    if String.prefix "2006" layout then Some (stdLongYear, 4%nat)
    else Some (stdDay, 1%nat)
  | String "3" _ => Some (stdHour12, 1%nat)
  | String "4" _ => Some (stdMinute, 1%nat)
  | String "5" _ => Some (stdSecond, 1%nat)
  | String "-" _ =>
    if String.prefix "-070000" layout then Some (stdNumSecondsTz, 7%nat)
    else if String.prefix "-07:00:00" layout then Some (stdNumColonSecondsTZ, 9%nat)
    else if String.prefix "-0700" layout then Some (stdNumTZ, 5%nat)
    else if String.prefix "-07:00" layout then Some (stdNumColonTZ, 6%nat)
    else if String.prefix "-07" layout then Some (stdNumShortTZ, 3%nat)
    else None
  | _ => None
  end.

Definition hour12 (h : Z) : Z :=
  let hr := h mod 12 in if hr =? 0 then 12 else hr.

(** What [Format] appends for a token; the zone offset of a UTC time is
    zero. *)
Definition appendStd (std : stdChunk) (t : Time) : string :=
  match std with
  | stdLongYear => appendInt (Year t) 4
  | stdYear => appendInt (Z.abs (Year t) mod 100) 2
  | stdZeroMonth => appendInt (Month t) 2
  | stdNumMonth => appendInt (Month t) 0
  | stdZeroDay => appendInt (Day t) 2
  | stdDay => appendInt (Day t) 0
  | stdHour => appendInt (Hour t) 2
  | stdZeroHour12 => appendInt (hour12 (Hour t)) 2
  | stdHour12 => appendInt (hour12 (Hour t)) 0
  | stdZeroMinute => appendInt (Minute t) 2
  | stdMinute => appendInt (Minute t) 0
  | stdZeroSecond => appendInt (Second t) 2
  | stdSecond => appendInt (Second t) 0
  | stdNumSecondsTz => "+000000"
  | stdNumColonSecondsTZ => "+00:00:00"
  | stdNumTZ => "+0000"
  | stdNumColonTZ => "+00:00"
  | stdNumShortTZ => "+00"
  end.

(** [Format]: walk the layout; a token is replaced by the field it stands
    for, every other character is copied.  [skip] counts the characters of
    the current token still to be passed over. *)
Fixpoint formatFrom (skip : nat) (layout : string) (t : Time) : string :=
  match layout with
  | EmptyString => EmptyString
  | String c rest =>
    match skip with
    | S skip' => formatFrom skip' rest t
    | O =>
      match nextStdChunk layout with
      | Some (std, len) => appendStd std t ++ formatFrom (len - 1) rest t
      | None => String c (formatFrom 0 rest t)
      end
    end
  end.

Definition Format (t : Time) (layout : string) : string := formatFrom 0 layout t.

(** [Time.UTC]: times are kept by their UTC fields, so the change of
    location leaves the value as it is. *)
Definition UTC (t : Time) : Time := t.

(** [fmt.Sprintf] for formats whose only verb is [%s]. *)
Fixpoint Sprintf (format : string) (args : list string) : string :=
  match format with
  | EmptyString => EmptyString
  | String "%" (String "s" rest) =>
    match args with
    | a :: args' => a ++ Sprintf rest args'
    | [] => "%!s(MISSING)" ++ Sprintf rest []
    end
  | String c rest => String c (Sprintf rest args)
  end.

(** ** The orchestrator *)

Definition archiveNameDateFormat : string := "2006-01-02T15-04-05".

(** The expression that names the archive in [runOuter]. *)
Definition archiveNameAt (now : Time) (cfg : config) : string :=
  Sprintf "neo4j_backup_%s_%s.tar.gz"
          [Format (UTC now) archiveNameDateFormat; env cfg].

(** [err.Error()]. *)
Definition errText (e : error) : string :=
  match e with Some msg => msg | None => EmptyString end.

(** [newS3WriterProvider] and [getWriter] are defined in a file that is
    not at hand; by section 6 the provider hands out a writable stream for
    a name.  The two together are the call [GetWriter]. *)
Definition newBucketWriter (awsAccessKey awsSecretKey s3Domain bucketName archiveName : string)
  : prog (WriteCloser * error) :=
  '(bucketWriter, err) <-
     call (GetWriter awsAccessKey awsSecretKey s3Domain bucketName archiveName) ;;
  match err with
  | Some _ =>
    logWith Error [("1", VErr err)] ("BucketWriter cannot be created: " ++ errText err)
  | None => Ret tt
  end ;;
  Ret (bucketWriter, err).

(** [defer d] around a function body: [d] runs when the body has produced
    the function's result, before the function returns it. *)
Definition defer {A B} (d : prog B) (body : prog A) : prog A :=
  r <- body ;; d ;; Ret r.

Definition uploadToS3 (bucketWriter : WriteCloser) (pipeReader : PipeReader)
  : prog error :=
  defer (call (WriterClose bucketWriter))
    ('(_, err) <- call (IoCopy bucketWriter pipeReader) ;;
     match err with
     | Some _ =>
       logWith Error [("1", VErr err)] ("Cannot upload archive to S3: " ++ errText err) ;;
       Ret err
     | None =>
       call (ReaderClose pipeReader) ;;
       Ret None
     end).

(** Modelled from the spec: [rsync] is defined in a file of the
    repository that is not at hand.  By section 4.2 it invokes the external
    sync primitive on the two paths and surfaces its success or failure as
    it is; here it is a call that the world answers. *)
Definition rsync (sourceDir targetDir : string) : prog error :=
  call (Rsync sourceDir targetDir).

(** Modelled from the spec: [createBackup] is defined in a file that is
    not at hand.  By section 4.3 it returns the reading end of a pipe into
    which the archive is written, or fails; here it is a call that the
    world answers. *)
Definition createBackup (dir archiveName : string) : prog (PipeReader * error) :=
  call (CreateBackup dir archiveName).

(** Modelled from the spec: [validateEnvironment] is defined in a file
    that is not at hand; it takes nothing and returns nothing, and the
    specification does not describe it.  Here it is a call that the world
    answers. *)
Definition validateEnvironment : prog unit := call ValidateEnvironment.

Definition runInner (fleetClient : fleetAPI) (bucketWriter : WriteCloser)
           (dataFolder targetFolder archiveName : string) : prog error :=
  logWith Info [("dataFolder", VStr dataFolder); ("targetFolder", VStr targetFolder)]
          "Starting first hot rsync process." ;;
  err <- rsync dataFolder targetFolder ;;
  match err with
  | Some _ =>
    logWith Warn [("dataFolder", VStr dataFolder); ("targetFolder", VStr targetFolder);
                  ("err", VErr err)]
      "Error synchronising neo4j files while database is running (i.e. hot); re-trying once." ;;
    err <- rsync dataFolder targetFolder ;;
    match err with
    | Some _ =>
      logWith Warn [("dataFolder", VStr dataFolder); ("targetFolder", VStr targetFolder);
                    ("err", VErr err)]
        ("Encountered another error synchronising neo4j files while database is running " ++
         "(i.e. hot); backup process failed to complete successfully. " ++
         "The cold backup phase will consequently take longer than usual.")
    | None => Ret tt
    end
  | None => Ret tt
  end ;;
  logMsg Info "Hot rsync completed, shutting down neo..." ;;
  err <- shutDownNeo fleetClient ;;
  match err with
  | Some _ =>
    logWith Error [("err", VErr err)] "Error shutting down neo4j; backup process failed." ;;
    Ret err
  | None =>
  logWith Info [("dataFolder", VStr dataFolder); ("targetFolder", VStr targetFolder)]
          "Starting cold rsync process..." ;;
  err <- rsync dataFolder targetFolder ;;
  match err with
  | Some _ =>
    logWith Error [("dataFolder", VStr dataFolder); ("targetFolder", VStr targetFolder);
                   ("err", VErr err)]
      "Error synchronising neo4j files while database is stopped; backup process failed." ;;
    Ret err
  | None =>
  logMsg Info "cold rsync completed, restarting neo..." ;;
  err <- startNeo fleetClient ;;
  match err with
  | Some _ =>
    logWith Error [("err", VErr err)] "Error starting up neo4j." ;;
    Ret err
  | None =>
  logMsg Info "neo has been started up, commencing archive creation..." ;;
  '(pipeReader, err) <- createBackup targetFolder archiveName ;;
  match err with
  | Some _ =>
    logWith Error [("err", VErr err)] "Error creating backup tarball." ;;
    Ret err
  | None =>
  logWith Info [("archiveName", VStr archiveName); ("err", VErr err)]
    "Initial tar/gzip archive created, streaming data to S3 as it is added to the archive..." ;;
  err <- uploadToS3 bucketWriter pipeReader ;;
  match err with
  | Some _ =>
    logWith Error [("archiveName", VStr archiveName); ("err", VErr err)]
            "Error uploading to S3; backup process failed." ;;
    Ret err
  | None =>
  validateEnvironment ;;
  logWith Info [("archiveName", VStr archiveName)]
          "Artefact successfully uploaded to S3; backup process complete." ;;
  Ret None
  end end end end end.

Definition runOuter (cfg : config) : prog error :=
  '(fleetClient, err) <- newFleetClient (fleetEndpoint cfg) (socksProxy cfg) ;;
  match err with
  | Some _ =>
    logWith Error [("fleetEndpoint", VStr (fleetEndpoint cfg));
                   ("socksProxy", VStr (socksProxy cfg)); ("err", VErr err)]
            "Error instantiating fleet client; backup process failed." ;;
    Ret err
  | None =>
    now <- call TimeNow ;;
    let archiveName := archiveNameAt now cfg in
    '(bucketWriter, err) <-
       newBucketWriter (awsAccessKey cfg) (awsSecretKey cfg) (s3Domain cfg)
                       (bucketName cfg) archiveName ;;
    match err with
    | Some _ =>
      logWith Error [("err", VErr err)]
              "Error instantiating S3 bucket writer; backup process failed." ;;
      Ret err
    | None =>
      runInner fleetClient bucketWriter (dataFolder cfg) (targetFolder cfg) archiveName
    end
  end.

(** ** main *)

(** [cli.StringFlag]. *)
Record StringFlag := mkStringFlag {
  flagName : string;
  flagValue : string;
  flagUsage : string;
  flagEnvVar : string
}.

Definition appFlags : list StringFlag :=
  [ mkStringFlag "fleetEndpoint" "http://localhost:49153"
      "connect to fleet API at `URL`" "FLEETCTL_ENDPOINT";
    mkStringFlag "socksProxy" EmptyString
      "connect to fleet via SOCKS proxy at `PROXY` in IP:PORT format" "SOCKS_PROXY";
    mkStringFlag "awsAccessKey" EmptyString
      "connect to AWS API using access key `KEY`" "AWS_ACCESS_KEY";
    mkStringFlag "awsSecretKey" EmptyString
      "connect to AWS API using secret key `KEY`" "AWS_SECRET_KEY";
    mkStringFlag "dataFolder" "/data/graph.db/"
      "back up from data folder `DATA_FOLDER` (needs a trailing slash)" "DATA_FOLDER";
    mkStringFlag "targetFolder" "/data/graph.db.backup"
      "back up to data folder `TARGET_FOLDER`" "TARGET_FOLDER";
    mkStringFlag "s3Domain" "s3-eu-west-1.amazonaws.com"
      "upload archive to S3 with domain (i.e. hostname) `S3_DOMAIN`" "S3_DOMAIN";
    mkStringFlag "bucketName" "com.ft.universalpublishing.backup-data"
      "upload archive to S3 with bucket name `BUCKET_NAME`" "BUCKET_NAME";
    mkStringFlag "env" EmptyString
      "connect to CoCo environment with tag `ENVIRONMENT_TAG`" "ENVIRONMENT_TAG" ].

(** The closure [app.Action], given the start time captured by [main] and
    the configuration read from the [cli.Context]. *)
Definition appAction (startTime : Time) (cfg : config) : prog error :=
  err <- runOuter cfg ;;
  match err with
  | Some _ => Exit 1
  | None =>
    d <- call (TimeSince startTime) ;;
    logWith Info [("duration", VInt d)] "Backup process complete." ;;
    Ret err
  end.

(** [main].  [app.Run(os.Args)] is the cli library reading flags and
    environment: the call [CliContext] stands for that reading.  It answers
    [Some cfg] when the library invokes [app.Action] on a context, [cfg]
    being the nine strings the action takes from it, and [None] when the
    library returns without invoking the action (a help or version flag, or
    flags it cannot parse).  [main] discards what [app.Run] returns, so in
    the second case it returns at once. *)
Definition main : prog unit :=
  startTime <- call TimeNow ;;
  logWith Info [("0", VTime startTime)] "Starting backup operation at startTime=%d." ;;
  invoked <- call CliContext ;;
  match invoked with
  | Some cfg => appAction startTime cfg ;; Ret tt
  | None => Ret tt
  end.

(** Exit status of the process for an outcome of [main]: [main] returning
    ends the process with status 0. *)
Definition exitStatus (r : outcome unit) : Z :=
  match r with
  | Returned _ => 0
  | Exited code => code
  end.

(** ** Scripted worlds, for running the programs on concrete inputs *)

Definition answerDefault {X} (c : Call X) : X :=
  match c in Call X return X with
  | UrlParse s => (s, None)
  | ProxySOCKS5 _ _ _ => (1%nat, None)
  | NewHTTPClient _ _ => (1%nat, None)
  | UnitStates _ => ([], None)
  | SetUnitTargetState _ _ _ => None
  | Rsync _ _ => None
  | CreateBackup _ _ => (3%nat, None)
  | GetWriter _ _ _ _ _ => (2%nat, None)
  | IoCopy _ _ => (0, None)
  | WriterClose _ => None
  | ReaderClose _ => None
  | ValidateEnvironment => tt
  | TimeNow => mkTime 2016 9 5 14 3 7
  | TimeSince _ => 0
  | CliContext =>
    Some (mkConfig "http://localhost:49153" EmptyString EmptyString EmptyString
                   "/data/graph.db/" "/data/graph.db.backup"
                   "s3-eu-west-1.amazonaws.com" "com.ft.universalpublishing.backup-data"
                   EmptyString)
  | Log _ _ _ => tt
  end.

(** The world in which every call succeeds and the fleet reports no
    units. *)
Definition calmWorld : oracle := fun X _ c => answerDefault c.

Definition test_cfg : config :=
  mkConfig "http://localhost:49153" EmptyString "AK" "SK"
           "/data/graph.db/" "/data/graph.db.backup"
           "s3-eu-west-1.amazonaws.com" "com.ft.universalpublishing.backup-data"
           "prod".

(** A world like [calmWorld] except that the fleet answers the roster
    query with [unitStates] and [err]. *)
Definition rosterWorld (unitStates : list UnitState) (err : error) : oracle :=
  fun X _ c =>
    match c in Call X return X -> X with
    | UnitStates _ => fun _ => (unitStates, err)
    | _ => fun d => d
    end (answerDefault c).

(** A world in which the fleet rejects every request for the target
    state [target]. *)
Definition rejectingWorld (target msg : string) : oracle :=
  fun X _ c =>
    match c in Call X return X -> X with
    | SetUnitTargetState _ _ tg => fun d => if String.eqb tg target then Some msg else d
    | _ => fun d => d
    end (answerDefault c).

(** A world in which every rsync fails, and one in which only the rsync
    attempted after the stop request fails. *)
Definition rsyncFailsWorld (msg : string) : oracle :=
  fun X _ c =>
    match c in Call X return X -> X with
    | Rsync _ _ => fun _ => Some msg
    | _ => fun d => d
    end (answerDefault c).

(** A world in which the copy to the bucket fails after [n] bytes. *)
Definition copyFailsWorld (n : Z) (msg : string) : oracle :=
  fun X _ c =>
    match c in Call X return X -> X with
    | IoCopy _ _ => fun _ => (n, Some msg)
    | _ => fun d => d
    end (answerDefault c).

(** A roster with the deployer on two machines: stopped on the first,
    running on the second. *)
Definition twoDeployers : list UnitState :=
  [ mkUnitState "5c1dcd" "machine-a" "deployer.service" "inactive" "loaded" "dead";
    mkUnitState "5c1dcd" "machine-b" "deployer.service" "active" "loaded" "running" ].

(** A roster in which the deployer is running. *)
Definition busyRoster : list UnitState :=
  [ mkUnitState "9f2a0b" "machine-a" "neo4j-red@1.service" "active" "loaded" "running";
    mkUnitState "5c1dcd" "machine-a" "deployer.service" "active" "loaded" "running" ].

(** A world in which rsync fails for as long as the database has not
    been asked to stop: both hot attempts fail, the cold one succeeds. *)
Definition hotFailsWorld (msg : string) : oracle :=
  fun X h c =>
    match c in Call X return X -> X with
    | Rsync _ _ => fun d =>
      if existsb (fun e => match e with
                           | EvSetUnitTargetState _ _ _ _ => true
                           | _ => false
                           end) h
      then d else Some msg
    | _ => fun d => d
    end (answerDefault c).

(** A world in which rsync works until the database has been asked to
    stop: the cold attempt fails. *)
Definition coldFailsWorld (msg : string) : oracle :=
  fun X h c =>
    match c in Call X return X -> X with
    | Rsync _ _ => fun d =>
      if existsb (fun e => match e with
                           | EvSetUnitTargetState _ _ _ _ => true
                           | _ => false
                           end) h
      then Some msg else d
    | _ => fun d => d
    end (answerDefault c).

(** ** Observations on traces *)

(** [post p o h Q]: the run of [p] by [o] from history [h] ends with an
    outcome and a trace that satisfy [Q]. *)
Definition post {R} (p : prog R) (o : oracle) (h : trace)
           (Q : outcome R -> trace -> Prop) : Prop :=
  Q (fst (run p o h)) (snd (run p o h)).

Definition isLog (e : event) : bool :=
  match e with EvLog _ _ _ => true | _ => false end.

Definition isRsync (e : event) : bool :=
  match e with EvRsync _ _ _ => true | _ => false end.

Definition isSetUnitTargetState (e : event) : bool :=
  match e with EvSetUnitTargetState _ _ _ _ => true | _ => false end.

(** The stop request for the database unit. *)
Definition isStopRequest (e : event) : bool :=
  match e with
  | EvSetUnitTargetState _ name target _ =>
    String.eqb name "neo4j-red@1.service" && String.eqb target "inactive"
  | _ => false
  end.

(** The start request for the database unit. *)
Definition isStartRequest (e : event) : bool :=
  match e with
  | EvSetUnitTargetState _ name target _ =>
    String.eqb name "neo4j-red@1.service" && String.eqb target "launched"
  | _ => false
  end.

Definition isCreateBackup (e : event) : bool :=
  match e with EvCreateBackup _ _ _ => true | _ => false end.

Definition isIoCopy (e : event) : bool :=
  match e with EvIoCopy _ _ _ => true | _ => false end.

Definition isUnitStates (e : event) : bool :=
  match e with EvUnitStates _ _ => true | _ => false end.

Definition isWriterClose (e : event) : bool :=
  match e with EvWriterClose _ _ => true | _ => false end.

Definition isReaderClose (e : event) : bool :=
  match e with EvReaderClose _ _ => true | _ => false end.

(** The first unit of a roster that carries a given name. *)
Fixpoint firstNamed (serviceName : string) (unitStates : list UnitState)
  : option UnitState :=
  match unitStates with
  | [] => None
  | u :: rest =>
    if String.eqb (Name u) serviceName then Some u else firstNamed serviceName rest
  end.

(** A roster shows a unit active when the first entry with its name has
    active-state ["active"]. *)
Definition showsActive (serviceName : string) (unitStates : list UnitState) : bool :=
  match firstNamed serviceName unitStates with
  | Some u => String.eqb (SystemdActiveState u) "active"
  | None => false
  end.

(** An error-free roster answer in which the deployer is not active. *)
Definition observedInactive (e : event) : bool :=
  match e with
  | EvUnitStates _ (unitStates, None) => negb (showsActive "deployer.service" unitStates)
  | _ => false
  end.

(** In [t], every event satisfying [Q] comes after one satisfying [P]. *)
Definition precededBy (P Q : event -> bool) (t : trace) : Prop :=
  forall t1 e t2, t = t1 ++ e :: t2 -> Q e = true -> existsb P t1 = true.

Fixpoint guarded (P Q : event -> bool) (seen : bool) (t : trace) : bool :=
  match t with
  | [] => true
  | e :: t' => (negb (Q e) || seen) && guarded P Q (seen || P e) t'
  end.

(** [P a t2] holds wherever [t] splits as [t1 ++ e :: t2] around an
    event [e] that [sel] selects with [a]. *)
Fixpoint atEvery {A} (sel : event -> option A) (P : A -> trace -> Prop) (t : trace)
  : Prop :=
  match t with
  | [] => True
  | e :: t' =>
    match sel e with Some a => P a t' | None => True end /\ atEvery sel P t'
  end.

(** The stop request the fleet accepted; the rsync that failed, with its
    message. *)
Definition acceptedStop (e : event) : option unit :=
  match e with
  | EvSetUnitTargetState _ name target None =>
    if String.eqb name "neo4j-red@1.service" && String.eqb target "inactive"
    then Some tt else None
  | _ => None
  end.

Definition failedRsync (e : event) : option string :=
  match e with
  | EvRsync _ _ (Some msg) => Some msg
  | _ => None
  end.

Fixpoint count (P : event -> bool) (t : trace) : nat :=
  match t with
  | [] => O
  | e :: t' => if P e then S (count P t') else count P t'
  end.

(** ** The archive name the specification asks for *)

(** A calendar time with a four-digit year. *)
Definition validTime (t : Time) : Prop :=
  0 <= Year t <= 9999 /\ 1 <= Month t <= 12 /\ 1 <= Day t <= 31 /\
  0 <= Hour t <= 23 /\ 0 <= Minute t <= 59 /\ 0 <= Second t <= 59.

(** [YYYY] and the two-digit fields [MM], [DD], [HH], [MM], [SS]. *)
Definition fourDigits (n : Z) : string :=
  String (digit (n / 1000 mod 10))
    (String (digit (n / 100 mod 10))
       (String (digit (n / 10 mod 10))
          (String (digit (n mod 10)) EmptyString))).

Definition twoDigits (n : Z) : string :=
  String (digit (n / 10 mod 10)) (String (digit (n mod 10)) EmptyString).

(** [YYYY-MM-DDTHH-MM-SS]. *)
Definition timestampLayout (t : Time) : string :=
  fourDigits (Year t) ++ "-" ++ twoDigits (Month t) ++ "-" ++ twoDigits (Day t) ++
  "T" ++ twoDigits (Hour t) ++ "-" ++ twoDigits (Minute t) ++ "-" ++ twoDigits (Second t).

(** [<service>_backup_<timestamp>_<environment tag>.tar.gz] for the
    service [neo4j]. *)
Definition archiveLayout (t : Time) (environmentTag : string) : string :=
  "neo4j_backup_" ++ timestampLayout t ++ "_" ++ environmentTag ++ ".tar.gz".

(** The archive name an event carries, if it carries one. *)
Definition archiveNameOf (e : event) : option string :=
  match e with
  | EvGetWriter _ _ _ _ name _ => Some name
  | EvCreateBackup _ name _ => Some name
  | _ => None
  end.

Definition readClock (e : event) : option Time :=
  match e with
  | EvTimeNow now => Some now
  | _ => None
  end.

(** Every archive name in [t] satisfies [P]. *)
Fixpoint allNamed (P : string -> Prop) (t : trace) : Prop :=
  match t with
  | [] => True
  | e :: t' =>
    match archiveNameOf e with Some name => P name | None => True end /\ allNamed P t'
  end.

(** ** Failures and the exit status *)

(** A log entry at level Error or Fatal. *)
Definition isFailureLog (e : event) : bool :=
  match e with
  | EvLog Error _ _ => true
  | EvLog Fatal _ _ => true
  | _ => false
  end.

(** A run that ended in failure logged it first: a returned error comes
    with a failure entry in the trace, a terminated process ended with
    [os.Exit(1)] after one. *)
Definition failureLogged (r : outcome error) (t : trace) : Prop :=
  match r with
  | Returned None => True
  | Returned (Some _) => existsb isFailureLog t = true
  | Exited code =>
    code = 1 /\
    exists before, t = before ++ [EvExit 1] /\ existsb isFailureLog before = true
  end.

(** The oracle [o] as seen by a program started after the history [h]. *)
Definition shift (o : oracle) (h : trace) : oracle :=
  fun X h' c => o X (h ++ h') c.

(** ** Set-up and backup steps *)

(** The bucket writer was obtained. *)
Definition gotWriter (e : event) : bool :=
  match e with
  | EvGetWriter _ _ _ _ _ (_, None) => true
  | _ => false
  end.

(** The calls of the backup proper: the syncs, the roster query, the
    stop and start requests, the archiver and the upload. *)
Definition isBackupStep (e : event) : bool :=
  isRsync e || isUnitStates e || isSetUnitTargetState e || isCreateBackup e || isIoCopy e.

(** The error with which the construction of the fleet client or the
    creation of the bucket writer failed. *)
Definition setupError (e : event) : option string :=
  match e with
  | EvUrlParse _ (_, Some msg) => Some msg
  | EvNewHTTPClient _ _ (_, Some msg) => Some msg
  | EvGetWriter _ _ _ _ _ (_, Some msg) => Some msg
  | _ => None
  end.

(** A world in which the bucket writer cannot be created. *)
Definition noBucketWorld (msg : string) : oracle :=
  fun X _ c =>
    match c in Call X return X -> X with
    | GetWriter _ _ _ _ _ => fun _ => (0%nat, Some msg)
    | _ => fun d => d
    end (answerDefault c).

(** ** Further observations *)

Definition isProxySOCKS5 (e : event) : bool :=
  match e with EvProxySOCKS5 _ _ _ _ => true | _ => false end.


Definition isGetWriter (e : event) : bool :=
  match e with EvGetWriter _ _ _ _ _ _ => true | _ => false end.

Definition isTimeNow (e : event) : bool :=
  match e with EvTimeNow _ => true | _ => false end.

Definition isValidateEnvironment (e : event) : bool :=
  match e with EvValidateEnvironment => true | _ => false end.

Definition isWarning (e : event) : bool :=
  match e with EvLog Warn _ _ => true | _ => false end.

Definition isFatalLog (e : event) : bool :=
  match e with EvLog Fatal _ _ => true | _ => false end.

(** The stop request the fleet accepted, as a test. *)
Definition isAcceptedStop (e : event) : bool :=
  match acceptedStop e with Some _ => true | None => false end.

(** An rsync that succeeded. *)
Definition rsyncOk (e : event) : bool :=
  match e with EvRsync _ _ None => true | _ => false end.

Definition succeededRsync (e : event) : option unit :=
  match e with EvRsync _ _ None => Some tt | _ => None end.

(** The archiver handed out a reader; the copy went through. *)
Definition createdBackup (e : event) : bool :=
  match e with EvCreateBackup _ _ (_, None) => true | _ => false end.

Definition createdReader (e : event) : option PipeReader :=
  match e with EvCreateBackup _ _ (r, None) => Some r | _ => None end.

Definition copyOk (e : event) : bool :=
  match e with EvIoCopy _ _ (_, None) => true | _ => false end.

(** The proxy dialer, the fleet client and the bucket writer that the
    world handed out. *)
Definition dialed (e : event) : option Dialer :=
  match e with EvProxySOCKS5 _ _ _ (d, None) => Some d | _ => None end.

Definition builtClient (e : event) : option fleetAPI :=
  match e with EvNewHTTPClient _ _ (fc, None) => Some fc | _ => None end.

Definition obtainedWriter (e : event) : option WriteCloser :=
  match e with EvGetWriter _ _ _ _ _ (w, None) => Some w | _ => None end.

Definition parsedURL (e : event) : option URL :=
  match e with EvUrlParse _ (u, None) => Some u | _ => None end.

(** An error-free roster answer that has no unit of the given name, and
    one in which the deployer is active. *)
Definition rosterLacks (serviceName : string) (e : event) : bool :=
  match e with
  | EvUnitStates _ (unitStates, None) =>
    match firstNamed serviceName unitStates with Some _ => false | None => true end
  | _ => false
  end.

Definition observedActive (e : event) : bool :=
  match e with
  | EvUnitStates _ (unitStates, None) => showsActive "deployer.service" unitStates
  | _ => false
  end.

(** The error with which the world answered a call, for the calls whose
    error the code looks at (the two [Close] calls are not among them). *)
Definition errorOf (e : event) : option string :=
  match e with
  | EvUrlParse _ (_, err) => err
  | EvProxySOCKS5 _ _ _ (_, err) => err
  | EvNewHTTPClient _ _ (_, err) => err
  | EvUnitStates _ (_, err) => err
  | EvSetUnitTargetState _ _ _ err => err
  | EvRsync _ _ err => err
  | EvCreateBackup _ _ (_, err) => err
  | EvGetWriter _ _ _ _ _ (_, err) => err
  | EvIoCopy _ _ (_, err) => err
  | _ => None
  end.

(** The errors the world answered with in the course of a trace. *)
Fixpoint errorsIn (t : trace) : list string :=
  match t with
  | [] => []
  | e :: t' =>
    match errorOf e with
    | Some msg => msg :: errorsIn t'
    | None => errorsIn t'
    end
  end.

(** [P] holds of every event of [t]. *)
Fixpoint every (P : event -> Prop) (t : trace) : Prop :=
  match t with
  | [] => True
  | e :: t' => P e /\ every P t'
  end.

(** The last event of a trace is a log entry of level Error. *)
Definition endsWithErrorLog (t : trace) : bool :=
  match last t EvValidateEnvironment with
  | EvLog Error _ _ => true
  | _ => false
  end.

(** What a fleet call must look like when made through the client [fc]
    by [shutDownNeo], by [startNeo], or by either. *)
Definition stopsNeoOn (fc : fleetAPI) (e : event) : Prop :=
  match e with
  | EvUnitStates c _ => c = fc
  | EvSetUnitTargetState c name target _ =>
    c = fc /\ name = "neo4j-red@1.service" /\ target = "inactive"
  | _ => True
  end.

Definition startsNeoOn (fc : fleetAPI) (e : event) : Prop :=
  match e with
  | EvSetUnitTargetState c name target _ =>
    c = fc /\ name = "neo4j-red@1.service" /\ target = "launched"
  | _ => True
  end.

Definition usesClient (fc : fleetAPI) (e : event) : Prop :=
  match e with
  | EvUnitStates c _ => c = fc
  | EvSetUnitTargetState c _ _ _ => c = fc
  | _ => True
  end.

(** The calls [runInner] may make, with the arguments it was given:
    rsync from the data folder to the target folder, the fleet through its
    client and for the database unit only, the archiver on the target
    folder under the archive name, the copy into and the close of its
    bucket writer, and nothing of the set-up, the clock or the process. *)
Definition innerCall (fc : fleetAPI) (bw : WriteCloser) (df tf an : string)
           (e : event) : Prop :=
  match e with
  | EvRsync src dst _ => src = df /\ dst = tf
  | EvUnitStates c _ => c = fc
  | EvSetUnitTargetState c name target _ =>
    c = fc /\ name = "neo4j-red@1.service" /\
    (target = "inactive" \/ target = "launched")
  | EvCreateBackup dir name _ => dir = tf /\ name = an
  | EvIoCopy dst _ _ => dst = bw
  | EvWriterClose w _ => w = bw
  | EvReaderClose _ _ => True
  | EvValidateEnvironment => True
  | EvLog _ _ _ => True
  | _ => False
  end.

(** The reader [r] is the one copied from and closed. *)
Definition usesReader (r : PipeReader) (e : event) : Prop :=
  match e with
  | EvIoCopy _ src _ => src = r
  | EvReaderClose x _ => x = r
  | _ => True
  end.

Definition usesWriter (w : WriteCloser) (e : event) : Prop :=
  match e with
  | EvIoCopy dst _ _ => dst = w
  | EvWriterClose x _ => x = w
  | _ => True
  end.

(** Every stage of the backup has taken place. *)
Definition allStagesDone (t : trace) : bool :=
  existsb isAcceptedStop t && existsb isStartRequest t && existsb createdBackup t &&
  existsb copyOk t && existsb isReaderClose t && existsb isWriterClose t &&
  existsb isValidateEnvironment t.

(** The configuration reaches the calls it is meant for. *)
Definition configuredCall (cfg : config) (e : event) : Prop :=
  match e with
  | EvUrlParse rawurl _ => rawurl = fleetEndpoint cfg
  | EvProxySOCKS5 network addr _ _ => network = "tcp" /\ addr = socksProxy cfg
  | EvGetWriter accessKey secretKey domain bucket _ _ =>
    accessKey = awsAccessKey cfg /\ secretKey = awsSecretKey cfg /\
    domain = s3Domain cfg /\ bucket = bucketName cfg
  | EvRsync src dst _ => src = dataFolder cfg /\ dst = targetFolder cfg
  | EvCreateBackup dir _ _ => dir = targetFolder cfg
  | _ => True
  end.

(** The client handed to [NewHTTPClient]. *)
Definition clientIs (c : httpClient) (e : event) : Prop :=
  match e with
  | EvNewHTTPClient c' _ _ => c' = c
  | _ => True
  end.

(** A world with a proxy that cannot be set up. *)
Definition noProxyWorld (msg : string) : oracle :=
  fun X _ c =>
    match c in Call X return X -> X with
    | ProxySOCKS5 _ _ _ => fun _ => (0%nat, Some msg)
    | _ => fun d => d
    end (answerDefault c).



(** The order of the stages in a trace. *)
Definition stagesInOrder (t : trace) : Prop :=
  guarded isAcceptedStop isStartRequest false t = true /\
  guarded isStartRequest isCreateBackup false t = true /\
  guarded createdBackup isIoCopy false t = true /\
  guarded copyOk isValidateEnvironment false t = true /\
  atEvery acceptedStop
          (fun _ t2 =>
             guarded rsyncOk isStartRequest false t2 = true /\
             atEvery succeededRsync (fun _ t4 => existsb isStartRequest t4 = true) t2)
          t.

(** How a run of [runInner] may end, and how often it calls. *)
Definition innerOutcome (r : outcome error) (t : trace) : Prop :=
  match r with
  | Returned None => allStagesDone t = true
  | Returned (Some msg) =>
    existsb isValidateEnvironment t = false /\
    endsWithErrorLog t = true /\
    In msg (deployerProblem :: errorsIn t)
  | Exited _ => False
  end.

Definition closesMatchCopies (t : trace) : Prop :=
  count isWriterClose t = count isIoCopy t /\
  count isReaderClose t = count copyOk t.

Definition withinCallBudget (t : trace) : Prop :=
  (count isUnitStates t = 1 /\ count isRsync t <= 3 /\
   count isStopRequest t <= 1 /\ count isStartRequest t <= 1 /\
   count isCreateBackup t <= 1 /\ count isIoCopy t <= 1)%nat.

(** The entry with which [main] reports success. *)
Definition isCompletionLog (e : event) : bool :=
  match e with
  | EvLog Info msg _ => String.eqb msg "Backup process complete."
  | _ => false
  end.

(** A call to the fleet; the building of its client. *)
Definition isFleetCall (e : event) : bool :=
  isUnitStates e || isSetUnitTargetState e.

Definition isBuiltClient (e : event) : bool :=
  match builtClient e with Some _ => true | None => false end.

(** What a run of [runOuter] does with what it builds and with its
    configuration. *)
Definition outerWiring (cfg : config) (t : trace) : Prop :=
  guarded isBuiltClient isFleetCall false t = true /\
  atEvery builtClient (fun fc t2 => every (usesClient fc) t2) t /\
  atEvery obtainedWriter (fun w t2 => every (usesWriter w) t2) t /\
  every (configuredCall cfg) t.

(** One archive name per run, from one reading of the clock taken after
    the fleet client was built. *)
Definition oneArchiveName (t : trace) : Prop :=
  (count isTimeNow t <= 1)%nat /\
  guarded isBuiltClient isTimeNow false t = true /\
  guarded isTimeNow isGetWriter false t = true /\
  exists name, allNamed (fun n => n = name) t.

(** A world in which closing the bucket writer fails. *)
Definition closeFailsWorld (msg : string) : oracle :=
  fun X _ c =>
    match c in Call X return X -> X with
    | WriterClose _ => fun _ => Some msg
    | _ => fun d => d
    end (answerDefault c).


(** The events with which every run of [main] begins, given the clock
    reading and what the cli library did. *)
Definition startUp (startTime : Time) (invoked : option config) : trace :=
  [EvTimeNow startTime;
   EvLog Info "Starting backup operation at startTime=%d." [("0", VTime startTime)];
   EvCliContext invoked].

(** * Lemmas on runs *)

Lemma run_Vis R X (c : Call X) (k : X -> prog R) o h :
  run (Vis c k) o h = run (k (o _ h c)) o (h ++ [record c (o _ h c)]).
Proof. reflexivity. Qed.

Lemma run_Ret R (r : R) o h : run (Ret r) o h = (Returned r, h).
Proof. reflexivity. Qed.

Lemma run_Exit R code o h : run (@Exit R code) o h = (Exited code, h ++ [EvExit code]).
Proof. reflexivity. Qed.

(** Running [bind p f] is running [p] and then, if it returned, [f] on
    its result from the history [p] left. *)
Lemma run_bind A B (p : prog A) (f : A -> prog B) o :
  forall h,
    run (bind p f) o h =
    match run p o h with
    | (Returned a, h') => run (f a) o h'
    | (Exited code, h') => (Exited code, h')
    end.
Proof.
  induction p as [a | X c k IH | code]; intros h; simpl.
  - reflexivity.
  - apply IH.
  - reflexivity.
Qed.

(** A run only adds to the history. *)
Lemma run_extends R (p : prog R) o :
  forall h, exists t, snd (run p o h) = h ++ t.
Proof.
  induction p as [a | X c k IH | code]; intros h; simpl.
  - exists []. now rewrite app_nil_r.
  - destruct (IH (o _ h c) (h ++ [record c (o _ h c)])) as [t Ht].
    exists (record c (o _ h c) :: t). rewrite Ht, <- app_assoc. reflexivity.
  - eexists. reflexivity.
Qed.

(** A run from a history [h] is the run from the empty history by the
    shifted oracle, put after [h]. *)
Lemma run_shift R (p : prog R) o h :
  forall h0,
    run p o (h ++ h0) =
    (fst (run p (shift o h) h0), h ++ snd (run p (shift o h) h0)).
Proof.
  induction p as [a | X c k IH | code]; intros h0; simpl.
  - reflexivity.
  - rewrite <- app_assoc. apply IH.
  - rewrite app_assoc. reflexivity.
Qed.

(** The loop of [isServiceActive] returns what [firstNamed] finds, and
    logs once exactly when it finds something. *)
Lemma run_scanUnits serviceName o :
  forall unitStates index h,
    (firstNamed serviceName unitStates = None /\
     run (scanUnits serviceName index unitStates) o h = (Returned (false, false), h))
    \/
    (exists u fields,
        firstNamed serviceName unitStates = Some u /\
        run (scanUnits serviceName index unitStates) o h =
        (Returned (true, String.eqb (SystemdActiveState u) "active"),
         h ++ [EvLog Info "Processing service." fields])).
Proof.
  induction unitStates as [| each rest IH]; intros index h; simpl.
  - left. split; reflexivity.
  - destruct (String.eqb (Name each) serviceName).
    + right. exists each. eexists. split; [reflexivity |].
      simpl. destruct (String.eqb (SystemdActiveState each) "active"); reflexivity.
    + apply IH.
Qed.

(** ** Rules for [post] *)

Lemma post_elim R (p : prog R) o h (Q : outcome R -> trace -> Prop) :
  post p o h Q -> forall r t, run p o h = (r, t) -> Q r t.
Proof. unfold post. intros H r t E. rewrite E in H. exact H. Qed.

Lemma post_Ret R (r : R) o h (Q : outcome R -> trace -> Prop) :
  Q (Returned r) h -> post (Ret r) o h Q.
Proof. intros H. exact H. Qed.

Lemma post_Exit R code o h (Q : outcome R -> trace -> Prop) :
  Q (Exited code) (h ++ [EvExit code]) -> post (Exit code) o h Q.
Proof. intros H. exact H. Qed.

Lemma post_Vis R X (c : Call X) (k : X -> prog R) o h Q :
  (forall x, post (k x) o (h ++ [record c x]) Q) -> post (Vis c k) o h Q.
Proof. intros H. apply H. Qed.

Lemma post_Vis_eq R X (c : Call X) (k : X -> prog R) (o : oracle) h Q x :
  o _ h c = x -> post (k x) o (h ++ [record c x]) Q -> post (Vis c k) o h Q.
Proof. intros <- H. apply H. Qed.

Lemma post_bind A B (p : prog A) (f : A -> prog B) o h Q :
  post p o h (fun r h' =>
                match r with
                | Returned a => post (f a) o h' Q
                | Exited code => Q (Exited code) h'
                end) ->
  post (bind p f) o h Q.
Proof.
  unfold post. rewrite run_bind.
  destruct (run p o h) as [[a | code] h']; simpl; auto.
Qed.

Lemma post_scanUnits serviceName index unitStates o h
      (Q : outcome (bool * bool) -> trace -> Prop) :
  (firstNamed serviceName unitStates = None -> Q (Returned (false, false)) h) ->
  (forall u fields,
      firstNamed serviceName unitStates = Some u ->
      Q (Returned (true, String.eqb (SystemdActiveState u) "active"))
        (h ++ [EvLog Info "Processing service." fields])) ->
  post (scanUnits serviceName index unitStates) o h Q.
Proof.
  intros H1 H2. unfold post.
  destruct (run_scanUnits serviceName o unitStates index h)
    as [[Hf Hr] | (u & f & Hf & Hr)]; rewrite Hr; simpl; auto.
Qed.

Lemma post_shift R (p : prog R) o h (Q : outcome R -> trace -> Prop) :
  post p (shift o h) [] (fun r t => Q r (h ++ t)) -> post p o h Q.
Proof.
  unfold post. intros H.
  pose proof (run_shift p o h []) as E. rewrite app_nil_r in E.
  rewrite E. exact H.
Qed.

(** Whatever [p] does, it only adds to the history. *)
Lemma post_any R (p : prog R) o h (Q : outcome R -> trace -> Prop) :
  (forall r rest, Q r (h ++ rest)) -> post p o h Q.
Proof.
  intros H. unfold post.
  destruct (run_extends p o h) as [t Ht]. rewrite Ht. apply H.
Qed.

(** ** Lists *)

Lemma guarded_precededBy P Q t : guarded P Q false t = true -> precededBy P Q t.
Proof.
  intros G t1. revert t G.
  induction t1 as [| x t1 IH]; intros t G e t2 Heq HQ; subst t; simpl in G.
  - rewrite HQ in G. discriminate.
  - apply andb_prop in G. destruct G as [_ G]. simpl.
    destruct (P x); [reflexivity |].
    simpl. apply (IH _ G e t2 eq_refl HQ).
Qed.

Lemma atEvery_split A (sel : event -> option A) P t :
  atEvery sel P t ->
  forall t1 e t2 a, t = t1 ++ e :: t2 -> sel e = Some a -> P a t2.
Proof.
  intros H t1. revert t H.
  induction t1 as [| x t1 IH]; intros t H e t2 a Heq Hsel; subst t; simpl in H.
  - rewrite Hsel in H. apply H.
  - apply (IH _ (proj2 H) e t2 a eq_refl Hsel).
Qed.

Lemma atEvery_In A (sel : event -> option A) (P : A -> Prop) t :
  atEvery sel (fun a _ => P a) t ->
  forall e a, In e t -> sel e = Some a -> P a.
Proof.
  intros H e a Hin Hsel.
  destruct (in_split e t Hin) as (t1 & t2 & Ht).
  exact (@atEvery_split _ sel (fun a _ => P a) t H t1 e t2 a Ht Hsel).
Qed.

(** Where a list with known head splits around an element. *)
Lemma split_at_cons A (t1 : list A) e t2 x l :
  t1 ++ e :: t2 = x :: l ->
  (t1 = [] /\ e = x /\ t2 = l) \/ (exists t1', t1 = x :: t1' /\ t1' ++ e :: t2 = l).
Proof.
  destruct t1 as [| y t1]; simpl; intros H; injection H as Hx Hl; subst.
  - left. auto.
  - right. eexists. split; reflexivity.
Qed.

Lemma split_at_nil A (t1 : list A) e t2 : t1 ++ e :: t2 = [] -> False.
Proof. destruct t1; discriminate. Qed.

(** ** Symbolic execution *)

(** Reduction of the program under execution: the functions of the
    repository and the monad are unfolded, the run is not. *)
Ltac reduce_prog :=
  cbn beta iota zeta delta
      [bind call logWith logMsg rsync createBackup validateEnvironment
       newFleetClient newBucketWriter uploadToS3 defer startNeo shutDownNeo
       isServiceActive setTargetState runInner runOuter appAction main
       errors_New negb orb andb record app].

(** An answer is split into its parts. *)
Ltac split_answer x :=
  match type of x with
  | unit => destruct x
  | (_ * _)%type =>
    let a := fresh "a" in let b := fresh "err" in
    destruct x as [a b]; try split_answer b
  | error => let m := fresh "msg" in destruct x as [m |]
  | option string => let m := fresh "msg" in destruct x as [m |]
  | _ => idtac
  end.

(** One step of a run.  A call is answered by what is known of the
    oracle's answer, or else by an arbitrary answer, split into its cases
    unless the code ignores it. *)
Ltac step :=
  lazymatch goal with
  | |- post (Vis ?c _) ?o ?h _ =>
    first
      [ match goal with E : o _ h c = _ |- _ => eapply post_Vis_eq; [exact E |] end
      | apply post_Vis;
        let x := fresh "ans" in
        intro x;
        lazymatch c with
        | WriterClose _ => idtac
        | ReaderClose _ => idtac
        | _ => split_answer x
        end ]
  | |- post (Ret _) _ _ _ => apply post_Ret
  | |- post (Exit _) _ _ _ => apply post_Exit
  | |- post (scanUnits _ _ _) _ _ _ =>
    apply post_scanUnits; [intros ?Hfirst | intros ?u ?fields ?Hfirst]
  | |- post (bind (if ?b then _ else _) _) _ _ _ => destruct b eqn:?Hif
  | |- post (bind _ _) _ _ _ => apply post_bind
  | |- post (if ?b then _ else _) _ _ _ =>
    lazymatch b with
    | context [String.eqb (SystemdActiveState ?u) "active"] =>
      destruct (String.eqb (SystemdActiveState u) "active") eqn:?Hactive
    end
  end;
  reduce_prog.

(** Symbolic execution of a whole run: one goal per path, the outcome
    and the trace spelled out. *)
Ltac execute := reduce_prog; repeat step.

(** A statement about [run p o h] is brought into the form [post]. *)
Ltac enter :=
  lazymatch goal with
  | |- post _ _ _ _ => idtac
  | |- forall r t, run ?p ?o ?h = (r, t) -> _ =>
    refine (@post_elim _ p o h (fun r t => _) _)
  | |- context [run ?p ?o ?h] =>
    let r := fresh "r" in
    let t := fresh "t" in
    let E := fresh "E" in
    destruct (run p o h) as [r t] eqn:E; cbn [fst snd];
    revert r t E; refine (@post_elim _ p o h (fun r t => _) _)
  end.

(** Events are checked against the facts a path of the run has
    established about the roster. *)
Ltac with_roster_facts :=
  unfold observedInactive, showsActive;
  repeat match goal with
         | H : firstNamed _ _ = _ |- _ => rewrite H
         | H : String.eqb (SystemdActiveState _) _ = _ |- _ => rewrite H
         end.

(** A member of a list that is spelled out. *)
Ltac in_list := cbn [In errorsIn errorOf]; first [left; reflexivity | right; in_list].

(** All the ways a trace that is known can be split around an event. *)
Ltac split_trace H :=
  repeat (first
    [ apply split_at_nil in H; destruct H
    | apply split_at_cons in H;
      destruct H as [(-> & H & ->) | (? & -> & H)];
      [ first [discriminate H | injection H as H; subst] | ] ]).

(** * The claims *)

(** ** uploadToS3 *)

(** C6. Whatever the copy does (succeeds, fails partway, or moves no
    byte at all), a run of [uploadToS3] closes the sink exactly once: the
    trace holds a single close of a write handle, it is the close of
    [bucketWriter], it is the last thing that happens, and then the
    function returns. *)
Theorem uploadToS3_closes_sink_exactly_once :
  forall (o : oracle) (bucketWriter : WriteCloser) (pipeReader : PipeReader),
    count isWriterClose (snd (run (uploadToS3 bucketWriter pipeReader) o [])) = 1%nat /\
    (exists before res,
        snd (run (uploadToS3 bucketWriter pipeReader) o []) =
        before ++ [EvWriterClose bucketWriter res]) /\
    (exists err, fst (run (uploadToS3 bucketWriter pipeReader) o []) = Returned err).
Proof.
  intros o bw pr. enter. execute.
  - split; [reflexivity |]. split.
    + eexists [_; _]. eexists. reflexivity.
    + eexists. reflexivity.
  - split; [reflexivity |]. split.
    + eexists [_; _]. eexists. reflexivity.
    + eexists. reflexivity.
Qed.

(** C7, as the code has it: when the copy fails, [uploadToS3] returns the
    error with the sink closed and the source stream left open. *)
Theorem uploadToS3_leaves_source_open_on_copy_error :
  run (uploadToS3 2%nat 3%nat) (copyFailsWorld 4096 "write: broken pipe") [] =
  (Returned (Some "write: broken pipe"),
   [EvIoCopy 2%nat 3%nat (4096, Some "write: broken pipe");
    EvLog Error "Cannot upload archive to S3: write: broken pipe"
          [("1", VErr (Some "write: broken pipe"))];
    EvWriterClose 2%nat None]).
Proof. reflexivity. Qed.

(** In every run the source stream is closed exactly when the copy
    succeeded. *)
Lemma uploadToS3_source_closed_iff_copied :
  forall (o : oracle) (bucketWriter : WriteCloser) (pipeReader : PipeReader),
    existsb isReaderClose (snd (run (uploadToS3 bucketWriter pipeReader) o [])) =
    match fst (run (uploadToS3 bucketWriter pipeReader) o []) with
    | Returned None => true
    | _ => false
    end.
Proof. intros o bw pr. enter. execute; reflexivity. Qed.

(** ** isServiceActive *)

Lemma firstNamed_Some serviceName unitStates u :
  firstNamed serviceName unitStates = Some u <->
  exists before after,
    unitStates = before ++ u :: after /\
    (forall v, In v before -> Name v <> serviceName) /\
    Name u = serviceName.
Proof.
  split.
  - induction unitStates as [| x rest IH]; simpl; [discriminate |].
    destruct (String.eqb_spec (Name x) serviceName) as [E | NE].
    + intros [= ->]. exists [], rest. simpl. intuition.
    + intros H. destruct (IH H) as (before & after & -> & Hb & Hu).
      exists (x :: before), after. simpl. repeat split; auto.
      intros v [<- | Hv]; auto.
  - intros (before & after & -> & Hb & Hu).
    induction before as [| x before IH]; simpl.
    + subst. now rewrite String.eqb_refl.
    + destruct (String.eqb_spec (Name x) serviceName) as [E | NE].
      * exfalso. apply (Hb x); simpl; auto.
      * apply IH. intros v Hv. apply Hb. simpl. auto.
Qed.

Lemma firstNamed_None serviceName unitStates :
  firstNamed serviceName unitStates = None <->
  forall v, In v unitStates -> Name v <> serviceName.
Proof.
  induction unitStates as [| x rest IH]; simpl.
  - intuition.
  - destruct (String.eqb_spec (Name x) serviceName) as [E | NE].
    + split; [discriminate |]. intros H. exfalso. apply (H x); auto.
    + rewrite IH. split.
      * intros H v [<- | Hv]; auto.
      * intros H v Hv. apply H. auto.
Qed.

(** What [isServiceActive] returns, by the answer to its roster query. *)
Lemma isServiceActive_returns (o : oracle) fleetClient serviceName unitStates err :
  o _ [] (UnitStates fleetClient) = (unitStates, err) ->
  fst (run (isServiceActive fleetClient serviceName) o []) =
  Returned (match err with
            | Some _ => false
            | None => showsActive serviceName unitStates
            end, err).
Proof.
  intros E. unfold showsActive. enter. destruct err; execute.
  - reflexivity.
  - rewrite Hfirst. reflexivity.
  - rewrite Hfirst. reflexivity.
Qed.

(** [isServiceActive] only queries: it never sets a target state. *)
Lemma isServiceActive_sets_nothing (o : oracle) fleetClient serviceName :
  existsb isSetUnitTargetState (snd (run (isServiceActive fleetClient serviceName) o [])) = false.
Proof. enter. execute; reflexivity. Qed.

(** C2, as stated, fails on a roster with two entries of the same name
    (a unit scheduled on two machines): the first is inactive, the second
    is active, and [isServiceActive] answers false. *)
Lemma isServiceActive_ignores_later_active_entry :
  fst (run (isServiceActive 1%nat "deployer.service") (rosterWorld twoDeployers None) []) =
  Returned (false, None) /\
  exists u, In u twoDeployers /\
            Name u = "deployer.service" /\ SystemdActiveState u = "active".
Proof.
  split; [reflexivity |].
  eexists. split; [right; left; reflexivity |]. split; reflexivity.
Qed.

(** C2, amended. When the roster query succeeds with roster [R],
    [isServiceActive] returns without error, and returns true iff the
    first entry of [R] named [N] has active-state ["active"]; when no
    entry is named [N] it returns false, whatever the size of [R]. *)
Theorem isServiceActive_first_match_decides :
  forall (o : oracle) (fleetClient : fleetAPI) (N : string) (R : list UnitState),
    o _ [] (UnitStates fleetClient) = (R, None) ->
    exists b,
      fst (run (isServiceActive fleetClient N) o []) = Returned (b, None) /\
      (b = true <->
       exists before u after,
         R = before ++ u :: after /\
         (forall v, In v before -> Name v <> N) /\
         Name u = N /\ SystemdActiveState u = "active") /\
      ((forall v, In v R -> Name v <> N) -> b = false).
Proof.
  intros o fc N R E.
  exists (showsActive N R). split; [| split].
  - apply (isServiceActive_returns o fc N E).
  - unfold showsActive. split.
    + destruct (firstNamed N R) as [u |] eqn:F; [| discriminate].
      intros A. apply firstNamed_Some in F. destruct F as (before & after & HR & Hb & Hu).
      exists before, u, after. repeat split; auto. now apply String.eqb_eq.
    + intros (before & u & after & HR & Hb & Hu & A).
      assert (F : firstNamed N R = Some u).
      { apply firstNamed_Some. exists before, after. auto. }
      rewrite F. now apply String.eqb_eq.
  - intros H. apply firstNamed_None in H. unfold showsActive. now rewrite H.
Qed.

Lemma isServiceActive_first_match_decides_witness :
  exists b,
    fst (run (isServiceActive 1%nat "deployer.service") (rosterWorld twoDeployers None) []) =
    Returned (b, None) /\
    (b = true <->
     exists before u after,
       twoDeployers = before ++ u :: after /\
       (forall v, In v before -> Name v <> "deployer.service") /\
       Name u = "deployer.service" /\ SystemdActiveState u = "active") /\
    ((forall v, In v twoDeployers -> Name v <> "deployer.service") -> b = false).
Proof.
  apply (@isServiceActive_first_match_decides
           (rosterWorld twoDeployers None) 1%nat "deployer.service" twoDeployers).
  reflexivity.
Defined.

(** ** The safety check before the stop request *)

(** Running [shutDownNeo] is running [isServiceActive] on the deployer
    and continuing from what it returned. *)
Lemma run_shutDownNeo_after_check (o : oracle) fleetClient b err :
  fst (run (isServiceActive fleetClient "deployer.service") o []) = Returned (b, err) ->
  b = true \/ err <> None ->
  (exists e, fst (run (shutDownNeo fleetClient) o []) = Returned (Some e)) /\
  existsb isSetUnitTargetState (snd (run (shutDownNeo fleetClient) o [])) = false.
Proof.
  intros Hret Hbad.
  pose proof (isServiceActive_sets_nothing o fleetClient "deployer.service") as Hquiet.
  unfold shutDownNeo. rewrite run_bind.
  destruct (run (isServiceActive fleetClient "deployer.service") o []) as [r h].
  simpl in Hret, Hquiet. subst r.
  assert (Hgo : b || match err with Some _ => true | None => false end = true).
  { destruct Hbad as [-> | Herr]; [reflexivity |].
    destruct err; [apply orb_true_r | contradiction]. }
  rewrite Hgo. reduce_prog. rewrite run_Vis.
  destruct err as [msg |]; rewrite run_Ret; simpl.
  - split; [eexists; reflexivity |].
    rewrite existsb_app, Hquiet. reflexivity.
  - split; [eexists; reflexivity |].
    rewrite existsb_app, Hquiet. reflexivity.
Qed.

(** C1. In every run of the pipeline, a stop request for the database
    unit comes only after an error-free answer to the roster query in
    which the deployer is not active; the same holds of every target-state
    request of [shutDownNeo].  And if [isServiceActive] reports the
    deployer active, or returns the error of the roster query,
    [shutDownNeo] returns a non-nil error and its run contains no call of
    [SetUnitTargetState]. *)
Theorem stop_request_only_after_inactive_observation :
  forall (o : oracle) (fleetClient : fleetAPI) (bucketWriter : WriteCloser)
         (dataFolder targetFolder archiveName : string),
    precededBy observedInactive isStopRequest
      (snd (run (runInner fleetClient bucketWriter dataFolder targetFolder archiveName) o []))
    /\
    precededBy observedInactive isSetUnitTargetState
      (snd (run (shutDownNeo fleetClient) o []))
    /\
    (forall b err,
        fst (run (isServiceActive fleetClient "deployer.service") o []) = Returned (b, err) ->
        b = true \/ err <> None ->
        (exists e, fst (run (shutDownNeo fleetClient) o []) = Returned (Some e)) /\
        existsb isSetUnitTargetState (snd (run (shutDownNeo fleetClient) o [])) = false).
Proof.
  intros o fc bw df tf an. split; [| split].
  - enter. execute.
    all: apply guarded_precededBy; simpl; with_roster_facts; reflexivity.
  - enter. execute.
    all: apply guarded_precededBy; simpl; with_roster_facts; reflexivity.
  - intros b err. apply run_shutDownNeo_after_check.
Qed.

Lemma stop_request_only_after_inactive_observation_witness :
  let calm := snd (run (runInner 1%nat 2%nat "/data/graph.db/" "/data/graph.db.backup"
                                 "neo4j_backup.tar.gz") calmWorld []) in
  let busy := rosterWorld busyRoster None in
  existsb observedInactive (firstn 6 calm) = true /\
  (exists e, fst (run (shutDownNeo 1%nat) busy []) = Returned (Some e)) /\
  existsb isSetUnitTargetState (snd (run (shutDownNeo 1%nat) busy [])) = false.
Proof.
  intros calm busy. split.
  - apply (proj1 (stop_request_only_after_inactive_observation
                    calmWorld 1%nat 2%nat "/data/graph.db/" "/data/graph.db.backup"
                    "neo4j_backup.tar.gz")
                 (firstn 6 calm)
                 (EvSetUnitTargetState 1%nat "neo4j-red@1.service" "inactive" None)
                 (skipn 7 calm)).
    + vm_compute. reflexivity.
    + reflexivity.
  - apply (proj2 (proj2 (stop_request_only_after_inactive_observation
                           busy 1%nat 2%nat "/data/graph.db/" "/data/graph.db.backup"
                           "neo4j_backup.tar.gz"))
                 true None).
    + reflexivity.
    + left. reflexivity.
Defined.

(** ** The two syncs *)

(** What follows an accepted stop request, and what follows a failed
    rsync after it, on every path of [runInner]. *)
Lemma runInner_after_stop (o : oracle) fleetClient bucketWriter
      dataFolder targetFolder archiveName :
  post (runInner fleetClient bucketWriter dataFolder targetFolder archiveName) o []
       (fun r t =>
          atEvery acceptedStop
            (fun _ t2 =>
               count isRsync t2 = 1%nat /\
               atEvery failedRsync
                 (fun msg t4 =>
                    r = Returned (Some msg) /\
                    forallb isLog t4 = true /\
                    existsb isStartRequest t4 = false /\
                    existsb isCreateBackup t4 = false /\
                    existsb isIoCopy t4 = false)
                 t2)
            t).
Proof. execute. all: simpl; repeat split; reflexivity. Qed.

(** C3. In every run in which the stop request succeeded, what follows
    it contains exactly one rsync, the cold sync.  If that rsync fails,
    [runInner] returns its error and nothing but log entries follows it: no
    start request, no archive creation, no upload. *)
Theorem cold_sync_attempted_once_and_fatal :
  forall (o : oracle) (fleetClient : fleetAPI) (bucketWriter : WriteCloser)
         (dataFolder targetFolder archiveName : string) r t,
    run (runInner fleetClient bucketWriter dataFolder targetFolder archiveName) o [] = (r, t) ->
    forall t1 fc t2,
      t = t1 ++ EvSetUnitTargetState fc "neo4j-red@1.service" "inactive" None :: t2 ->
      count isRsync t2 = 1%nat /\
      forall t3 src dst msg t4,
        t2 = t3 ++ EvRsync src dst (Some msg) :: t4 ->
        r = Returned (Some msg) /\
        forallb isLog t4 = true /\
        existsb isStartRequest t4 = false /\
        existsb isCreateBackup t4 = false /\
        existsb isIoCopy t4 = false.
Proof.
  intros o fc bw df tf an r t E t1 fc' t2 Ht.
  pose proof (@post_elim _ _ _ _ _ (runInner_after_stop o fc bw df tf an) _ _ E) as H.
  destruct (@atEvery_split _ _ _ _ H _ _ _ tt Ht eq_refl) as [Hcount Hfatal].
  split; [exact Hcount |].
  intros t3 src dst msg t4 Ht2.
  exact (@atEvery_split _ _ _ _ Hfatal _ _ _ msg Ht2 eq_refl).
Qed.

Lemma cold_sync_attempted_once_and_fatal_witness :
  let w := coldFailsWorld "rsync: exit status 23" in
  let t := snd (run (runInner 1%nat 2%nat "/data/graph.db/" "/data/graph.db.backup"
                              "neo4j_backup.tar.gz") w []) in
  count isRsync (skipn 7 t) = 1%nat /\
  fst (run (runInner 1%nat 2%nat "/data/graph.db/" "/data/graph.db.backup"
                     "neo4j_backup.tar.gz") w []) = Returned (Some "rsync: exit status 23") /\
  forallb isLog (skipn 10 t) = true /\
  existsb isStartRequest (skipn 10 t) = false /\
  existsb isCreateBackup (skipn 10 t) = false /\
  existsb isIoCopy (skipn 10 t) = false.
Proof.
  intros w t.
  assert (E : run (runInner 1%nat 2%nat "/data/graph.db/" "/data/graph.db.backup"
                            "neo4j_backup.tar.gz") w [] =
              (fst (run (runInner 1%nat 2%nat "/data/graph.db/" "/data/graph.db.backup"
                                  "neo4j_backup.tar.gz") w []), t)).
  { vm_compute. reflexivity. }
  assert (Ht : t = firstn 6 t ++
                   EvSetUnitTargetState 1%nat "neo4j-red@1.service" "inactive" None
                   :: skipn 7 t).
  { vm_compute. reflexivity. }
  destruct (@cold_sync_attempted_once_and_fatal _ _ _ _ _ _ _ _ E _ _ _ Ht) as [Hcount Hfatal].
  split; [exact Hcount |].
  apply (Hfatal (firstn 2 (skipn 7 t)) "/data/graph.db/" "/data/graph.db.backup"
                "rsync: exit status 23" (skipn 10 t)).
  vm_compute. reflexivity.
Defined.




(** With both hot attempts failing and every later call succeeding, the
    run goes through to the end and returns nil. *)
Example runInner_survives_two_hot_failures :
  fst (run (runInner 1%nat 2%nat "/data/graph.db/" "/data/graph.db.backup"
                     "neo4j_backup.tar.gz")
           (hotFailsWorld "rsync: exit status 12") []) = Returned None /\
  count isRsync
        (snd (run (runInner 1%nat 2%nat "/data/graph.db/" "/data/graph.db.backup"
                            "neo4j_backup.tar.gz")
                  (hotFailsWorld "rsync: exit status 12") [])) = 3%nat.
Proof. vm_compute. split; reflexivity. Qed.

(** ** startNeo *)

(** [startNeo] returns nil whatever the fleet answers. *)
Lemma startNeo_returns_nil (o : oracle) fleetClient :
  fst (run (startNeo fleetClient) o []) = Returned None.
Proof. enter. execute; reflexivity. Qed.

(** C5, as the code has it: the fleet rejects the request to launch the
    database; [startNeo] still returns nil, and [runInner] goes on to
    create the archive and upload it, and returns nil. *)
Theorem start_failure_is_swallowed :
  let w := rejectingWorld "launched" "unit does not exist" in
  let run_pipeline := run (runInner 1%nat 2%nat "/data/graph.db/" "/data/graph.db.backup"
                                    "neo4j_backup.tar.gz") w [] in
  run (startNeo 1%nat) w [] =
  (Returned None,
   [EvLog Info "Starting up neo4j..." [];
    EvSetUnitTargetState 1%nat "neo4j-red@1.service" "launched" (Some "unit does not exist");
    EvLog Error "Problem setting unit target state!"
          [("err", VErr (Some "unit does not exist")); ("targetState", VStr "launched");
           ("serviceName", VStr "neo4j-red@1.service")]]) /\
  fst run_pipeline = Returned None /\
  existsb isCreateBackup (snd run_pipeline) = true /\
  existsb isIoCopy (snd run_pipeline) = true.
Proof. vm_compute. repeat split; reflexivity. Qed.

(** ** The archive name *)

Lemma decimal_small fuel u acc :
  u < 10 -> decimal (S fuel) u acc = String (digit u) acc.
Proof. intros H. simpl. destruct (Z.leb_spec 10 u); [lia | reflexivity]. Qed.

Lemma decimal_big fuel u acc :
  10 <= u ->
  decimal (S fuel) u acc = decimal fuel (u / 10) (String (digit (u mod 10)) acc).
Proof. intros H. simpl. destruct (Z.leb_spec 10 u); [reflexivity | lia]. Qed.

Ltac div_lia := Z.to_euclidean_division_equations; lia.

(** [appendInt] with width 4 writes the four digits of a year below
    10000, and with width 2 the two digits of a field below 100. *)
Lemma appendInt_fourDigits y : 0 <= y <= 9999 -> appendInt y 4 = fourDigits y.
Proof.
  intros Hy. unfold appendInt, fourDigits.
  destruct (Z.ltb_spec y 0) as [Hneg | _]; [lia |].
  rewrite Z.abs_eq by lia.
  destruct (Z_lt_le_dec y 10) as [H1 | H1].
  { rewrite decimal_small by lia. cbn [String.length Nat.sub zeros append].
    replace (y / 1000 mod 10) with 0 by div_lia.
    replace (y / 100 mod 10) with 0 by div_lia.
    replace (y / 10 mod 10) with 0 by div_lia.
    replace (y mod 10) with y by div_lia. reflexivity. }
  rewrite decimal_big by lia.
  destruct (Z_lt_le_dec y 100) as [H2 | H2].
  { rewrite decimal_small by div_lia. cbn [String.length Nat.sub zeros append].
    replace (y / 1000 mod 10) with 0 by div_lia.
    replace (y / 100 mod 10) with 0 by div_lia.
    replace (y / 10 mod 10) with (y / 10) by div_lia. reflexivity. }
  rewrite decimal_big by div_lia.
  destruct (Z_lt_le_dec y 1000) as [H3 | H3].
  { rewrite decimal_small by div_lia. cbn [String.length Nat.sub zeros append].
    replace (y / 1000 mod 10) with 0 by div_lia.
    replace (y / 100 mod 10) with (y / 10 / 10) by div_lia. reflexivity. }
  rewrite decimal_big by div_lia.
  rewrite decimal_small by div_lia. cbn [String.length Nat.sub zeros append].
  replace (y / 1000 mod 10) with (y / 10 / 10 / 10) by div_lia.
  replace (y / 100 mod 10) with (y / 10 / 10 mod 10) by div_lia. reflexivity.
Qed.

Lemma appendInt_twoDigits x : 0 <= x <= 99 -> appendInt x 2 = twoDigits x.
Proof.
  intros Hx. unfold appendInt, twoDigits.
  destruct (Z.ltb_spec x 0) as [Hneg | _]; [lia |].
  rewrite Z.abs_eq by lia.
  destruct (Z_lt_le_dec x 10) as [H1 | H1].
  { rewrite decimal_small by lia. cbn [String.length Nat.sub zeros append].
    replace (x / 10 mod 10) with 0 by div_lia.
    replace (x mod 10) with x by div_lia. reflexivity. }
  rewrite decimal_big by lia.
  rewrite decimal_small by div_lia. cbn [String.length Nat.sub zeros append].
  replace (x / 10 mod 10) with (x / 10) by div_lia. reflexivity.
Qed.

(** The layout constant of the repository formats a time as
    [YYYY-MM-DDTHH-MM-SS]. *)
Lemma Format_archiveNameDateFormat t :
  validTime t -> Format (UTC t) archiveNameDateFormat = timestampLayout t.
Proof.
  intros (Hy & Hmo & Hd & Hh & Hmi & Hs).
  unfold Format, UTC, archiveNameDateFormat, timestampLayout.
  cbn -[appendInt fourDigits twoDigits].
  rewrite appendInt_fourDigits by lia.
  rewrite !appendInt_twoDigits by lia.
  reflexivity.
Qed.

Lemma archiveNameAt_layout now cfg :
  validTime now -> archiveNameAt now cfg = archiveLayout now (env cfg).
Proof.
  intros V. unfold archiveNameAt, archiveLayout.
  rewrite (Format_archiveNameDateFormat V).
  cbn [Sprintf]. reflexivity.
Qed.

Lemma allNamed_In P t :
  allNamed P t -> forall e name, In e t -> archiveNameOf e = Some name -> P name.
Proof.
  induction t as [| x t IH]; simpl.
  - intros _ e name [].
  - intros [Hx Ht] e name [-> | Hin] He.
    + rewrite He in Hx. exact Hx.
    + apply (IH Ht e name Hin He).
Qed.

(** On every path of [runOuter], the archive names handed out are the
    one computed from the clock reading of that run. *)
Lemma runOuter_archive_names (o : oracle) cfg :
  post (runOuter cfg) o []
       (fun _ t =>
          atEvery readClock
                  (fun now _ => allNamed (fun name => name = archiveNameAt now cfg) t)
                  t).
Proof.
  execute.
  all: cbn [atEvery allNamed readClock archiveNameOf]; repeat split; reflexivity.
Qed.

(** C8. In every run of [runOuter], with the clock read as a calendar
    time [now] (four-digit year), every archive name the run hands out
    (to the bucket writer and to the archiver) is
    [neo4j_backup_<YYYY-MM-DDTHH-MM-SS of now>_<env>.tar.gz]. *)
Theorem archive_name_follows_layout :
  forall (o : oracle) (cfg : config) r t,
    run (runOuter cfg) o [] = (r, t) ->
    forall t1 now t2,
      t = t1 ++ EvTimeNow now :: t2 ->
      validTime now ->
      forall e name,
        In e t -> archiveNameOf e = Some name ->
        name = ("neo4j_backup_" ++ timestampLayout now ++ "_" ++ env cfg ++ ".tar.gz")%string.
Proof.
  intros o cfg r t E t1 now t2 Ht V e name Hin He.
  pose proof (@post_elim _ _ _ _ _ (runOuter_archive_names o cfg) _ _ E) as H.
  pose proof (@atEvery_split _ _ _ _ H _ _ _ now Ht eq_refl) as Hnames.
  rewrite (allNamed_In _ _ Hnames _ Hin He).
  apply (archiveNameAt_layout cfg V).
Qed.

Lemma archive_name_follows_layout_witness :
  "neo4j_backup_2016-09-05T14-03-07_prod.tar.gz" =
  ("neo4j_backup_" ++ timestampLayout (mkTime 2016 9 5 14 3 7) ++ "_" ++
   env test_cfg ++ ".tar.gz")%string.
Proof.
  assert (E : run (runOuter test_cfg) calmWorld [] =
              (fst (run (runOuter test_cfg) calmWorld []),
               snd (run (runOuter test_cfg) calmWorld []))).
  { vm_compute. reflexivity. }
  assert (Ht : snd (run (runOuter test_cfg) calmWorld []) =
               firstn 4 (snd (run (runOuter test_cfg) calmWorld [])) ++
               EvTimeNow (mkTime 2016 9 5 14 3 7)
               :: skipn 5 (snd (run (runOuter test_cfg) calmWorld []))).
  { vm_compute. reflexivity. }
  assert (V : validTime (mkTime 2016 9 5 14 3 7)).
  { unfold validTime. simpl. lia. }
  apply (@archive_name_follows_layout
           calmWorld test_cfg _ _ E _ _ _ Ht V
           (EvGetWriter "AK" "SK" "s3-eu-west-1.amazonaws.com"
                        "com.ft.universalpublishing.backup-data"
                        "neo4j_backup_2016-09-05T14-03-07_prod.tar.gz" (2%nat, None))).
  - vm_compute. do 5 right. left. reflexivity.
  - reflexivity.
Defined.

(** ** The exit status *)

(** On every path of [runOuter] that ends in failure, the failure was
    logged. *)
Lemma runOuter_failures_logged (o : oracle) cfg :
  post (runOuter cfg) o [] failureLogged.
Proof.
  execute.
  all: unfold errors_New.
  all: lazymatch goal with
       | |- failureLogged (Returned None) _ => exact I
       | |- failureLogged (Returned (Some _)) _ => reflexivity
       | |- failureLogged (Exited _) ?t =>
         split; [reflexivity |]; exists (removelast t); split; reflexivity
       end.
Qed.

Lemma runOuter_failures_logged_from (o : oracle) cfg h :
  post (runOuter cfg) o h
       (fun r t => exists t', t = h ++ t' /\ failureLogged r t').
Proof.
  apply post_shift.
  pose proof (runOuter_failures_logged (shift o h) cfg) as H.
  unfold post in *. eexists. split; [reflexivity | exact H].
Qed.

(** A run of [main] is its start-up events alone when the cli library
    does not invoke the action, and otherwise goes on with the action. *)
Lemma run_main_cases (o : oracle) :
  (exists startTime,
      run main o [] = (Returned tt, startUp startTime None)) \/
  (exists startTime cfg,
      run main o [] =
      run (bind (appAction startTime cfg) (fun _ => Ret tt)) o
          (startUp startTime (Some cfg))).
Proof.
  unfold main, startUp. cbn [bind call logWith]. rewrite !run_Vis. cbn [record app].
  destruct (o _ _ CliContext) as [cfg |].
  - right. do 2 eexists. reflexivity.
  - left. eexists. reflexivity.
Qed.

Lemma run_main_invoked (o : oracle) startTime cfg rest :
  snd (run main o []) = startUp startTime (Some cfg) ++ rest ->
  run main o [] =
  run (bind (appAction startTime cfg) (fun _ => Ret tt)) o
      (startUp startTime (Some cfg)).
Proof.
  intros Ht.
  destruct (run_main_cases o) as [[st Hrun] | (st & cfg' & Hrun)];
    rewrite Hrun in Ht |- *.
  - discriminate Ht.
  - destruct (run_extends (bind (appAction st cfg') (fun _ => Ret tt)) o
                          (startUp st (Some cfg'))) as [t' Hext].
    rewrite Hext in Ht. unfold startUp in Ht. simpl in Ht.
    injection Ht as Hst _ Hcfg _. subst st cfg'. reflexivity.
Qed.

Lemma run_main_not_invoked (o : oracle) startTime rest :
  snd (run main o []) = startUp startTime None ++ rest ->
  run main o [] = (Returned tt, startUp startTime None).
Proof.
  intros Ht.
  destruct (run_main_cases o) as [[st Hrun] | (st & cfg' & Hrun)];
    rewrite Hrun in Ht |- *.
  - unfold startUp in Ht. simpl in Ht. injection Ht as Hst _.
    subst st. reflexivity.
  - destruct (run_extends (bind (appAction st cfg') (fun _ => Ret tt)) o
                          (startUp st (Some cfg'))) as [t' Hext].
    rewrite Hext in Ht. discriminate Ht.
Qed.

(** The action, by what [runOuter] does: an error ends the process with
    [os.Exit(1)], nil is followed by the completion entry, and a process
    terminated inside [runOuter] stays terminated. *)
Lemma run_appAction (o : oracle) startTime cfg h :
  run (bind (appAction startTime cfg) (fun _ => Ret tt)) o h =
  match run (runOuter cfg) o h with
  | (Returned (Some _), h') => (Exited 1, h' ++ [EvExit 1])
  | (Returned None, h') =>
    let elapsed := o _ h' (TimeSince startTime) in
    (Returned tt,
     (h' ++ [EvTimeSince startTime elapsed]) ++
     [EvLog Info "Backup process complete." [("duration", VInt elapsed)]])
  | (Exited code, h') => (Exited code, h')
  end.
Proof.
  unfold appAction. rewrite !run_bind.
  destruct (run (runOuter cfg) o h) as [[[msg |] | code] h']; reflexivity.
Qed.




(** ** The bucket writer comes first *)

(** On every path of [runOuter]: the backup steps come after the bucket
    writer was obtained; a failed set-up call ends the run with its error
    and without a backup step; so does a terminated process. *)
Lemma runOuter_setup_first (o : oracle) cfg :
  post (runOuter cfg) o []
       (fun r t =>
          guarded gotWriter isBackupStep false t = true /\
          atEvery setupError
                  (fun msg _ => r = Returned (Some msg) /\ existsb isBackupStep t = false)
                  t /\
          match r with
          | Exited _ => existsb isBackupStep t = false
          | Returned _ => True
          end).
Proof.
  execute.
  all: split; [reflexivity | split; [| first [exact I | reflexivity]]].
  all: cbn [atEvery setupError]; repeat split; reflexivity.
Qed.

(** C10. In every run of [runOuter], every backup step (rsync, roster
    query, stop or start request, archive creation, upload) comes after
    the bucket writer was obtained.  If the construction of the fleet
    client or the creation of the bucket writer fails with an error,
    [runOuter] returns that error and the run contains no backup step;
    nor does it when the process is terminated over the proxy. *)
Theorem bucket_writer_acquired_before_backup :
  forall (o : oracle) (cfg : config) r t,
    run (runOuter cfg) o [] = (r, t) ->
    precededBy gotWriter isBackupStep t /\
    (forall e msg,
        In e t -> setupError e = Some msg ->
        r = Returned (Some msg) /\
        existsb isRsync t = false /\
        existsb isSetUnitTargetState t = false /\
        existsb isBackupStep t = false) /\
    (forall code, r = Exited code -> existsb isBackupStep t = false).
Proof.
  intros o cfg r t E.
  destruct (@post_elim _ _ _ _ _ (runOuter_setup_first o cfg) _ _ E) as (Hg & Hs & Hx).
  split; [apply guarded_precededBy; exact Hg |]. split.
  - intros e msg Hin He.
    destruct (@atEvery_In _ _ _ _ Hs _ _ Hin He) as [Hr Hnone].
    split; [exact Hr |].
    assert (Hall : forall x, In x t -> isBackupStep x = false).
    { intros x Hx'. destruct (isBackupStep x) eqn:B; [| reflexivity].
      assert (existsb isBackupStep t = true) by (apply existsb_exists; eauto).
      congruence. }
    repeat split; [| | exact Hnone].
    + destruct (existsb isRsync t) eqn:B; [| reflexivity].
      apply existsb_exists in B. destruct B as (x & Hx' & B).
      specialize (Hall x Hx'). unfold isBackupStep in Hall. rewrite B in Hall. discriminate.
    + destruct (existsb isSetUnitTargetState t) eqn:B; [| reflexivity].
      apply existsb_exists in B. destruct B as (x & Hx' & B).
      specialize (Hall x Hx'). unfold isBackupStep in Hall. rewrite B in Hall.
      rewrite !orb_true_r in Hall. discriminate.
  - intros code ->. exact Hx.
Qed.

Lemma bucket_writer_acquired_before_backup_witness :
  let w := noBucketWorld "NoSuchBucket" in
  fst (run (runOuter test_cfg) w []) = Returned (Some "NoSuchBucket") /\
  existsb isRsync (snd (run (runOuter test_cfg) w [])) = false /\
  existsb isSetUnitTargetState (snd (run (runOuter test_cfg) w [])) = false /\
  existsb isBackupStep (snd (run (runOuter test_cfg) w [])) = false.
Proof.
  intros w.
  assert (E : run (runOuter test_cfg) w [] =
              (fst (run (runOuter test_cfg) w []), snd (run (runOuter test_cfg) w []))).
  { vm_compute. reflexivity. }
  apply (proj1 (proj2 (@bucket_writer_acquired_before_backup w test_cfg _ _ E))
               (EvGetWriter "AK" "SK" "s3-eu-west-1.amazonaws.com"
                            "com.ft.universalpublishing.backup-data"
                            "neo4j_backup_2016-09-05T14-03-07_prod.tar.gz"
                            (0%nat, Some "NoSuchBucket"))
               "NoSuchBucket").
  - vm_compute. do 5 right. left. reflexivity.
  - reflexivity.
Defined.

(** * Further properties of the code *)

Lemma every_In P t : every P t <-> forall e, In e t -> P e.
Proof.
  induction t as [| x t IH]; simpl.
  - split; [intros _ e [] | auto].
  - rewrite IH. split.
    + intros [Hx Ht] e [<- | He]; auto.
    + intros H. split; [apply H; auto | intros e He; apply H; auto].
Qed.

(** ** fleet.go *)

(** X1. [isServiceActive] makes exactly one roster query, through the
    client it was given, and never sets a target state.  It logs a warning
    exactly when the roster came without error and has no unit of the
    name.  It returns the error of the roster query as it is, and with an
    error never answers true. *)
Theorem isServiceActive_effects :
  forall (o : oracle) (fleetClient : fleetAPI) (serviceName : string),
    count isUnitStates (snd (run (isServiceActive fleetClient serviceName) o [])) = 1%nat /\
    every (usesClient fleetClient) (snd (run (isServiceActive fleetClient serviceName) o [])) /\
    existsb isSetUnitTargetState
            (snd (run (isServiceActive fleetClient serviceName) o [])) = false /\
    existsb isWarning (snd (run (isServiceActive fleetClient serviceName) o [])) =
    existsb (rosterLacks serviceName)
            (snd (run (isServiceActive fleetClient serviceName) o [])) /\
    exists b err,
      fst (run (isServiceActive fleetClient serviceName) o []) = Returned (b, err) /\
      errorsIn (snd (run (isServiceActive fleetClient serviceName) o [])) =
      match err with Some msg => [msg] | None => [] end /\
      match err with Some _ => b = false | None => True end.
Proof.
  intros o fc N. enter. execute.
  all: cbn [count isUnitStates every usesClient existsb isSetUnitTargetState isWarning
            rosterLacks orb errorsIn errorOf];
    try rewrite Hfirst.
  all: repeat split; try reflexivity.
  all: do 2 eexists; repeat split; reflexivity.
Qed.

(** X2. [shutDownNeo] returns nil exactly when it issued the stop
    request and the fleet accepted it.  An error it returns is one the
    fleet answered with (from the roster query or from the stop request),
    or the deployer message, which it is whenever the roster shows the
    deployer active.  It makes at most one target-state request, and its
    fleet calls go through its client and ask only for the database unit to
    become inactive. *)
Theorem shutDownNeo_result :
  forall (o : oracle) (fleetClient : fleetAPI),
  exists res,
    fst (run (shutDownNeo fleetClient) o []) = Returned res /\
    match res with
    | None => existsb isAcceptedStop (snd (run (shutDownNeo fleetClient) o [])) = true
    | Some msg =>
      existsb isAcceptedStop (snd (run (shutDownNeo fleetClient) o [])) = false /\
      In msg (deployerProblem :: errorsIn (snd (run (shutDownNeo fleetClient) o [])))
    end /\
    (if existsb observedActive (snd (run (shutDownNeo fleetClient) o []))
     then res = Some deployerProblem else True) /\
    (count isSetUnitTargetState (snd (run (shutDownNeo fleetClient) o [])) <= 1)%nat /\
    every (stopsNeoOn fleetClient) (snd (run (shutDownNeo fleetClient) o [])).
Proof.
  intros o fc. enter. execute.
  all: unfold errors_New; eexists; split; [reflexivity |].
  all: cbn [existsb isAcceptedStop acceptedStop observedActive showsActive
            String.eqb Ascii.eqb Bool.eqb andb orb count isSetUnitTargetState
            every stopsNeoOn];
    unfold showsActive; try rewrite Hfirst; try rewrite Hactive; cbn [orb].
  all: repeat split; try reflexivity; try lia; try in_list.
Qed.

(** X3. [startNeo] makes exactly one fleet call, the request through its
    client for the database unit to be launched; it never queries the
    roster; and it returns nil whatever the fleet answers. *)
Theorem startNeo_effects :
  forall (o : oracle) (fleetClient : fleetAPI),
    fst (run (startNeo fleetClient) o []) = Returned None /\
    count isSetUnitTargetState (snd (run (startNeo fleetClient) o [])) = 1%nat /\
    existsb isUnitStates (snd (run (startNeo fleetClient) o [])) = false /\
    every (startsNeoOn fleetClient) (snd (run (startNeo fleetClient) o [])).
Proof.
  intros o fc. enter. execute.
  all: cbn [every startsNeoOn]; repeat split; reflexivity.
Qed.

(** A membership in a trace that is spelled out, case by case. *)
Ltac cases_of_In H :=
  cbn [In] in H;
  repeat match type of H with
         | _ \/ _ => destruct H as [H | H]
         | False => destruct H
         end;
  try discriminate H.

(** X4. The HTTP client [newFleetClient] builds.  [NewHTTPClient] is
    called on the URL that the endpoint parsed to.  Without a proxy the
    client has the plain transport with 100 idle connections per host and
    no proxy is dialled.  With a proxy, SOCKS5 was set up first for "tcp"
    at the proxy address over a dialer with 30-second timeout and
    keep-alive, and the client's transport dials through what that
    returned, with a 10-second TLS handshake timeout and 100 idle
    connections per host. *)
Theorem newFleetClient_transport :
  forall (o : oracle) (endpoint proxy : string) r t,
    run (newFleetClient endpoint proxy) o [] = (r, t) ->
    forall c u res,
      In (EvNewHTTPClient c u res) t ->
      In (EvUrlParse endpoint (u, None)) t /\
      (proxy = EmptyString ->
       c = mkHttpClient (mkTransport false None 0 100) /\
       existsb isProxySOCKS5 t = false) /\
      (proxy <> EmptyString ->
       exists d,
         In (EvProxySOCKS5 "tcp" proxy (mkNetDialer 30 30) (d, None)) t /\
         c = mkHttpClient (mkTransport true (Some d) 10 100)).
Proof.
  intros o endpoint proxy. enter. execute.
  all: intros c u res Hin; cases_of_In Hin.
  all: injection Hin as <- <- <-.
  all: lazymatch goal with
       | Hif : String.eqb _ _ = true |- _ => apply String.eqb_eq in Hif
       | Hif : String.eqb _ _ = false |- _ => apply String.eqb_neq in Hif
       end.
  all: split; [in_list |]; split; intros Hp; try contradiction.
  all: try (split; reflexivity).
  all: eexists; split; [in_list | reflexivity].
Qed.

Lemma newFleetClient_transport_witness :
  (mkHttpClient (mkTransport false None 0 100) = mkHttpClient (mkTransport false None 0 100) /\
   existsb isProxySOCKS5
           (snd (run (newFleetClient "http://localhost:49153" EmptyString) calmWorld [])) = false)
  /\
  exists d,
    In (EvProxySOCKS5 "tcp" "10.0.0.1:1080" (mkNetDialer 30 30) (d, None))
       (snd (run (newFleetClient "http://localhost:49153" "10.0.0.1:1080") calmWorld [])) /\
    mkHttpClient (mkTransport true (Some 1%nat) 10 100) =
    mkHttpClient (mkTransport true (Some d) 10 100).
Proof.
  split.
  - assert (E : run (newFleetClient "http://localhost:49153" EmptyString) calmWorld [] =
                (fst (run (newFleetClient "http://localhost:49153" EmptyString) calmWorld []),
                 snd (run (newFleetClient "http://localhost:49153" EmptyString) calmWorld []))).
    { vm_compute. reflexivity. }
    refine (proj1 (proj2 (@newFleetClient_transport _ _ _ _ _ E
                            (mkHttpClient (mkTransport false None 0 100))
                            "http://localhost:49153" (1%nat, None) _)) eq_refl).
    vm_compute. do 2 right. left. reflexivity.
  - assert (E : run (newFleetClient "http://localhost:49153" "10.0.0.1:1080") calmWorld [] =
                (fst (run (newFleetClient "http://localhost:49153" "10.0.0.1:1080")
                          calmWorld []),
                 snd (run (newFleetClient "http://localhost:49153" "10.0.0.1:1080")
                          calmWorld []))).
    { vm_compute. reflexivity. }
    refine (proj2 (proj2 (@newFleetClient_transport _ _ _ _ _ E
                            (mkHttpClient (mkTransport true (Some 1%nat) 10 100))
                            "http://localhost:49153" (1%nat, None) _)) _).
    + vm_compute. do 4 right. left. reflexivity.
    + discriminate.
Defined.


(** ** runInner *)

Lemma isAcceptedStop_acceptedStop e : isAcceptedStop e = true -> acceptedStop e = Some tt.
Proof. unfold isAcceptedStop. destruct (acceptedStop e) as [[] |]; [reflexivity | discriminate]. Qed.

Lemma rsyncOk_succeededRsync e : rsyncOk e = true -> succeededRsync e = Some tt.
Proof. destruct e; try discriminate. destruct res; [discriminate | reflexivity]. Qed.

Ltac prove_stagesInOrder :=
  unfold stagesInOrder; do 4 (split; [reflexivity |]);
  cbn [atEvery acceptedStop succeededRsync String.eqb Ascii.eqb Bool.eqb andb];
  repeat split; reflexivity.

Ltac prove_wiring :=
  cbn [every innerCall atEvery createdReader usesReader];
  repeat split; first [reflexivity | left; reflexivity | right; reflexivity].

Ltac prove_innerOutcome :=
  unfold innerOutcome;
  first [reflexivity | split; [reflexivity | split; [reflexivity | in_list]]].

Ltac prove_counts :=
  unfold closesMatchCopies, withinCallBudget;
  cbn [count isWriterClose isReaderClose copyOk isUnitStates isRsync isStopRequest
       isStartRequest isCreateBackup isIoCopy String.eqb Ascii.eqb Bool.eqb andb];
  repeat split; lia.

(** What holds on every path of [runInner]. *)
Lemma runInner_facts (o : oracle) fleetClient bucketWriter dataFolder targetFolder archiveName :
  post (runInner fleetClient bucketWriter dataFolder targetFolder archiveName) o []
       (fun r t =>
          stagesInOrder t /\
          (every (innerCall fleetClient bucketWriter dataFolder targetFolder archiveName) t /\
           atEvery createdReader (fun rd t2 => every (usesReader rd) t2) t) /\
          innerOutcome r t /\
          closesMatchCopies t /\
          withinCallBudget t).
Proof.
  execute.
  all: unfold errors_New.
  all: split; [prove_stagesInOrder |].
  all: split; [prove_wiring |].
  all: split; [prove_innerOutcome |].
  all: split; prove_counts.
Qed.

(** X6. The stages of [runInner] come in order, each after the one
    before it: a start request only after an accepted stop request and,
    from there on, only after an rsync that succeeded; the archiver only
    after the start request; the copy only after the archiver handed out a
    reader; [validateEnvironment] only after a copy that succeeded. *)
Theorem runInner_stages_in_order :
  forall (o : oracle) (fleetClient : fleetAPI) (bucketWriter : WriteCloser)
         (dataFolder targetFolder archiveName : string) r t,
    run (runInner fleetClient bucketWriter dataFolder targetFolder archiveName) o [] = (r, t) ->
    precededBy isAcceptedStop isStartRequest t /\
    (forall t1 stop t2,
        t = t1 ++ stop :: t2 -> isAcceptedStop stop = true ->
        precededBy rsyncOk isStartRequest t2) /\
    precededBy isStartRequest isCreateBackup t /\
    precededBy createdBackup isIoCopy t /\
    precededBy copyOk isValidateEnvironment t.
Proof.
  intros o fc bw df tf an r t E.
  destruct (@post_elim _ _ _ _ _ (runInner_facts o fc bw df tf an) _ _ E)
    as ((H1 & H2 & H3 & H4 & H5) & _).
  repeat split; try (apply guarded_precededBy; assumption).
  intros t1 stop t2 Ht Hstop.
  apply guarded_precededBy.
  exact (proj1 (@atEvery_split _ _ _ _ H5 _ _ _ tt Ht (isAcceptedStop_acceptedStop _ Hstop))).
Qed.

(** X7. Once the stop request was accepted and the rsync after it
    succeeded, [runInner] does ask for the database to be started again,
    whatever the later stages do. *)
Theorem restart_follows_cold_sync :
  forall (o : oracle) (fleetClient : fleetAPI) (bucketWriter : WriteCloser)
         (dataFolder targetFolder archiveName : string) r t,
    run (runInner fleetClient bucketWriter dataFolder targetFolder archiveName) o [] = (r, t) ->
    forall t1 stop t2 t3 sync t4,
      t = t1 ++ stop :: t2 -> isAcceptedStop stop = true ->
      t2 = t3 ++ sync :: t4 -> rsyncOk sync = true ->
      existsb isStartRequest t4 = true.
Proof.
  intros o fc bw df tf an r t E t1 stop t2 t3 sync t4 Ht Hstop Ht2 Hsync.
  destruct (@post_elim _ _ _ _ _ (runInner_facts o fc bw df tf an) _ _ E)
    as ((_ & _ & _ & _ & H5) & _).
  pose proof (proj2 (@atEvery_split _ _ _ _ H5 _ _ _ tt Ht
                                    (isAcceptedStop_acceptedStop _ Hstop))) as H.
  exact (@atEvery_split _ _ _ _ H _ _ _ tt Ht2 (rsyncOk_succeededRsync _ Hsync)).
Qed.

(** X8. [runInner] reaches the outside world only with what it was
    given: every rsync goes from the data folder to the target folder;
    every fleet call goes through its client, and a target-state request is
    for the database unit, to become inactive or launched; the archiver
    works on the target folder under the archive name; the copy goes into,
    and the close is of, its bucket writer.  It makes no call of the
    set-up, does not read the clock and does not end the process. *)
Theorem runInner_calls_with_its_arguments :
  forall (o : oracle) (fleetClient : fleetAPI) (bucketWriter : WriteCloser)
         (dataFolder targetFolder archiveName : string),
    every (innerCall fleetClient bucketWriter dataFolder targetFolder archiveName)
          (snd (run (runInner fleetClient bucketWriter dataFolder targetFolder archiveName)
                    o [])).
Proof.
  intros o fc bw df tf an.
  exact (proj1 (proj1 (proj2 (runInner_facts o fc bw df tf an)))).
Qed.

(** X9. The reader the archiver hands out is the one [runInner] copies
    from and the one it closes. *)
Theorem runInner_uploads_the_created_archive :
  forall (o : oracle) (fleetClient : fleetAPI) (bucketWriter : WriteCloser)
         (dataFolder targetFolder archiveName : string) r t,
    run (runInner fleetClient bucketWriter dataFolder targetFolder archiveName) o [] = (r, t) ->
    forall t1 dir name reader t2,
      t = t1 ++ EvCreateBackup dir name (reader, None) :: t2 ->
      forall e, In e t2 -> usesReader reader e.
Proof.
  intros o fc bw df tf an r t E t1 dir name reader t2 Ht.
  destruct (@post_elim _ _ _ _ _ (runInner_facts o fc bw df tf an) _ _ E)
    as (_ & (_ & H) & _).
  apply every_In.
  exact (@atEvery_split _ _ _ _ H _ _ _ reader Ht eq_refl).
Qed.

(** X10. [runInner] never ends the process itself.  It returns nil only
    when every stage has taken place: the stop request accepted, the start
    request made, the archive created, the copy gone through, both ends
    closed and the environment validated.  When it returns an error, the
    environment was not validated, the last thing it did was to log at
    level Error, and the error is one a call of the run was answered with,
    or the deployer message. *)
Theorem runInner_outcomes :
  forall (o : oracle) (fleetClient : fleetAPI) (bucketWriter : WriteCloser)
         (dataFolder targetFolder archiveName : string),
    match fst (run (runInner fleetClient bucketWriter dataFolder targetFolder archiveName)
                   o []) with
    | Returned None =>
      allStagesDone
        (snd (run (runInner fleetClient bucketWriter dataFolder targetFolder archiveName)
                  o [])) = true
    | Returned (Some msg) =>
      existsb isValidateEnvironment
              (snd (run (runInner fleetClient bucketWriter dataFolder targetFolder
                                  archiveName) o [])) = false /\
      endsWithErrorLog
        (snd (run (runInner fleetClient bucketWriter dataFolder targetFolder archiveName)
                  o [])) = true /\
      In msg (deployerProblem ::
              errorsIn (snd (run (runInner fleetClient bucketWriter dataFolder targetFolder
                                           archiveName) o [])))
    | Exited _ => False
    end.
Proof.
  intros o fc bw df tf an.
  exact (proj1 (proj2 (proj2 (runInner_facts o fc bw df tf an)))).
Qed.

(** X11. In every run of [runInner] the bucket writer is closed as
    often as the copy was attempted, and the reader as often as the copy
    went through, each at most once: a run that fails before the upload
    leaves the bucket writer it was given unclosed. *)
Theorem runInner_closes_match_copies :
  forall (o : oracle) (fleetClient : fleetAPI) (bucketWriter : WriteCloser)
         (dataFolder targetFolder archiveName : string),
    count isWriterClose
          (snd (run (runInner fleetClient bucketWriter dataFolder targetFolder archiveName)
                    o [])) =
    count isIoCopy
          (snd (run (runInner fleetClient bucketWriter dataFolder targetFolder archiveName)
                    o [])) /\
    count isReaderClose
          (snd (run (runInner fleetClient bucketWriter dataFolder targetFolder archiveName)
                    o [])) =
    count copyOk
          (snd (run (runInner fleetClient bucketWriter dataFolder targetFolder archiveName)
                    o [])) /\
    (count isIoCopy
           (snd (run (runInner fleetClient bucketWriter dataFolder targetFolder archiveName)
                     o [])) <= 1)%nat.
Proof.
  intros o fc bw df tf an.
  destruct (proj2 (proj2 (proj2 (runInner_facts o fc bw df tf an)))) as [[Hw Hr] Hb].
  repeat split; [exact Hw | exact Hr | apply Hb].
Qed.

(** X12. A run of [runInner] queries the roster exactly once, runs rsync
    at most three times, and makes each of the stop request, the start
    request and the call of the archiver at most once. *)
Theorem runInner_call_budget :
  forall (o : oracle) (fleetClient : fleetAPI) (bucketWriter : WriteCloser)
         (dataFolder targetFolder archiveName : string),
    (count isUnitStates
           (snd (run (runInner fleetClient bucketWriter dataFolder targetFolder archiveName)
                     o [])) = 1 /\
     count isRsync
           (snd (run (runInner fleetClient bucketWriter dataFolder targetFolder archiveName)
                     o [])) <= 3 /\
     count isStopRequest
           (snd (run (runInner fleetClient bucketWriter dataFolder targetFolder archiveName)
                     o [])) <= 1 /\
     count isStartRequest
           (snd (run (runInner fleetClient bucketWriter dataFolder targetFolder archiveName)
                     o [])) <= 1 /\
     count isCreateBackup
           (snd (run (runInner fleetClient bucketWriter dataFolder targetFolder archiveName)
                     o [])) <= 1)%nat.
Proof.
  intros o fc bw df tf an.
  destruct (proj2 (proj2 (proj2 (proj2 (runInner_facts o fc bw df tf an)))))
    as (H1 & H2 & H3 & H4 & H5 & _).
  repeat split; assumption.
Qed.

(** ** runOuter *)

Ltac prove_outerWiring :=
  unfold outerWiring; split; [reflexivity |];
  cbn [atEvery builtClient obtainedWriter every usesClient usesWriter configuredCall];
  repeat split; reflexivity.

Ltac prove_oneArchiveName :=
  unfold oneArchiveName;
  split; [cbn [count isTimeNow]; lia |];
  split; [reflexivity |]; split; [reflexivity |];
  first [ exists EmptyString; cbn [allNamed archiveNameOf]; repeat split; reflexivity
        | eexists; cbn [allNamed archiveNameOf]; repeat split; reflexivity ].

(** What holds on every path of [runOuter]. *)
Lemma runOuter_facts (o : oracle) cfg :
  post (runOuter cfg) o []
       (fun _ t =>
          outerWiring cfg t /\
          oneArchiveName t /\
          existsb isCompletionLog t = false).
Proof.
  execute.
  all: split; [prove_outerWiring |].
  all: split; [prove_oneArchiveName | reflexivity].
Qed.

(** X13. In every run of [runOuter], the fleet is called only after the
    client was built, every fleet call after that goes through the client
    [NewHTTPClient] handed out, and the copy goes into, and the close is
    of, the writer [getWriter] handed out. *)
Theorem runOuter_uses_what_it_built :
  forall (o : oracle) (cfg : config) r t,
    run (runOuter cfg) o [] = (r, t) ->
    precededBy isBuiltClient isFleetCall t /\
    (forall t1 c u fc t2,
        t = t1 ++ EvNewHTTPClient c u (fc, None) :: t2 ->
        forall e, In e t2 -> usesClient fc e) /\
    (forall t1 accessKey secretKey domain bucket name w t2,
        t = t1 ++ EvGetWriter accessKey secretKey domain bucket name (w, None) :: t2 ->
        forall e, In e t2 -> usesWriter w e).
Proof.
  intros o cfg r t E.
  destruct (@post_elim _ _ _ _ _ (runOuter_facts o cfg) _ _ E) as ((Hg & Hc & Hw & _) & _).
  split; [apply guarded_precededBy; exact Hg |]. split.
  - intros t1 c u fc t2 Ht. apply every_In.
    exact (@atEvery_split _ _ _ _ Hc _ _ _ fc Ht eq_refl).
  - intros t1 ak sk d b n w t2 Ht. apply every_In.
    exact (@atEvery_split _ _ _ _ Hw _ _ _ w Ht eq_refl).
Qed.

Lemma runOuter_uses_what_it_built_witness :
  let t := snd (run (runOuter test_cfg) calmWorld []) in
  existsb isBuiltClient (firstn 9 t) = true /\
  usesClient 1%nat (EvUnitStates 1%nat ([], None)) /\
  usesWriter 2%nat (EvWriterClose 2%nat None).
Proof.
  intros t.
  assert (E : run (runOuter test_cfg) calmWorld [] =
              (fst (run (runOuter test_cfg) calmWorld []), t)).
  { vm_compute. reflexivity. }
  destruct (@runOuter_uses_what_it_built calmWorld test_cfg _ _ E) as (Hp & Hc & Hw).
  split; [| split].
  - apply (Hp (firstn 9 t) (EvUnitStates 1%nat ([], None)) (skipn 10 t)).
    + vm_compute. reflexivity.
    + reflexivity.
  - apply (Hc (firstn 2 t)
              (mkHttpClient (mkTransport false None 0 100)) "http://localhost:49153"
              1%nat (skipn 3 t)).
    + vm_compute. reflexivity.
    + vm_compute. in_list.
  - apply (Hw (firstn 5 t) "AK" "SK" "s3-eu-west-1.amazonaws.com"
              "com.ft.universalpublishing.backup-data"
              "neo4j_backup_2016-09-05T14-03-07_prod.tar.gz" 2%nat (skipn 6 t)).
    + vm_compute. reflexivity.
    + vm_compute. in_list.
Defined.

(** X14. [runOuter] hands each part of the configuration to the call it
    is meant for: the fleet endpoint to the URL parser, the proxy address
    to the SOCKS5 set-up, the S3 keys, domain and bucket to [getWriter], the
    data and target folders to rsync, and the target folder to the
    archiver. *)
Theorem runOuter_passes_its_configuration :
  forall (o : oracle) (cfg : config),
    every (configuredCall cfg) (snd (run (runOuter cfg) o [])).
Proof.
  intros o cfg. destruct (runOuter_facts o cfg) as ((_ & _ & _ & H) & _). exact H.
Qed.

(** X15. A run of [runOuter] reads the clock at most once, after the
    fleet client was built and before it asks for the bucket writer, and
    every archive name it hands out, to [getWriter] and to the archiver, is
    the same. *)
Theorem runOuter_names_one_archive :
  forall (o : oracle) (cfg : config) r t,
    run (runOuter cfg) o [] = (r, t) ->
    (count isTimeNow t <= 1)%nat /\
    precededBy isBuiltClient isTimeNow t /\
    precededBy isTimeNow isGetWriter t /\
    forall e1 e2 n1 n2,
      In e1 t -> In e2 t ->
      archiveNameOf e1 = Some n1 -> archiveNameOf e2 = Some n2 -> n1 = n2.
Proof.
  intros o cfg r t E.
  destruct (@post_elim _ _ _ _ _ (runOuter_facts o cfg) _ _ E)
    as (_ & (Hc & Hb & Hg & name & Hn) & _).
  split; [exact Hc |]. split; [apply guarded_precededBy; exact Hb |].
  split; [apply guarded_precededBy; exact Hg |].
  intros e1 e2 n1 n2 H1 H2 A1 A2.
  rewrite (@allNamed_In _ _ Hn _ _ H1 A1), (@allNamed_In _ _ Hn _ _ H2 A2). reflexivity.
Qed.

Lemma runOuter_names_one_archive_witness :
  "neo4j_backup_2016-09-05T14-03-07_prod.tar.gz" =
  "neo4j_backup_2016-09-05T14-03-07_prod.tar.gz".
Proof.
  assert (E : run (runOuter test_cfg) calmWorld [] =
              (fst (run (runOuter test_cfg) calmWorld []),
               snd (run (runOuter test_cfg) calmWorld []))).
  { vm_compute. reflexivity. }
  apply (proj2 (proj2 (proj2 (@runOuter_names_one_archive calmWorld test_cfg _ _ E)))
               (EvGetWriter "AK" "SK" "s3-eu-west-1.amazonaws.com"
                            "com.ft.universalpublishing.backup-data"
                            "neo4j_backup_2016-09-05T14-03-07_prod.tar.gz" (2%nat, None))
               (EvCreateBackup "/data/graph.db.backup"
                               "neo4j_backup_2016-09-05T14-03-07_prod.tar.gz"
                               (3%nat, None))).
  - vm_compute. in_list.
  - vm_compute. in_list.
  - reflexivity.
  - reflexivity.
Defined.

Lemma runInner_stages_in_order_witness :
  let t := snd (run (runInner 1%nat 2%nat "/data/graph.db/" "/data/graph.db.backup"
                              "neo4j_backup.tar.gz") calmWorld []) in
  existsb isAcceptedStop (firstn 12 t) = true /\
  existsb rsyncOk (firstn 5 (skipn 7 t)) = true.
Proof.
  intros t.
  assert (E : run (runInner 1%nat 2%nat "/data/graph.db/" "/data/graph.db.backup"
                            "neo4j_backup.tar.gz") calmWorld [] =
              (fst (run (runInner 1%nat 2%nat "/data/graph.db/" "/data/graph.db.backup"
                                  "neo4j_backup.tar.gz") calmWorld []), t)).
  { vm_compute. reflexivity. }
  destruct (@runInner_stages_in_order calmWorld _ _ _ _ _ _ _ E) as (H1 & H2 & _).
  split.
  - apply (H1 (firstn 12 t)
              (EvSetUnitTargetState 1%nat "neo4j-red@1.service" "launched" None)
              (skipn 13 t)).
    + vm_compute. reflexivity.
    + reflexivity.
  - apply (H2 (firstn 6 t)
              (EvSetUnitTargetState 1%nat "neo4j-red@1.service" "inactive" None)
              (skipn 7 t)
              ltac:(vm_compute; reflexivity) eq_refl
              (firstn 5 (skipn 7 t))
              (EvSetUnitTargetState 1%nat "neo4j-red@1.service" "launched" None)
              (skipn 13 t)).
    + vm_compute. reflexivity.
    + reflexivity.
Defined.

Lemma restart_follows_cold_sync_witness :
  existsb isStartRequest
          (skipn 10 (snd (run (runInner 1%nat 2%nat "/data/graph.db/" "/data/graph.db.backup"
                                        "neo4j_backup.tar.gz") calmWorld []))) = true.
Proof.
  set (t := snd (run (runInner 1%nat 2%nat "/data/graph.db/" "/data/graph.db.backup"
                               "neo4j_backup.tar.gz") calmWorld [])).
  assert (E : run (runInner 1%nat 2%nat "/data/graph.db/" "/data/graph.db.backup"
                            "neo4j_backup.tar.gz") calmWorld [] =
              (fst (run (runInner 1%nat 2%nat "/data/graph.db/" "/data/graph.db.backup"
                                  "neo4j_backup.tar.gz") calmWorld []), t)).
  { vm_compute. reflexivity. }
  apply (@restart_follows_cold_sync calmWorld _ _ _ _ _ _ _ E
           (firstn 6 t)
           (EvSetUnitTargetState 1%nat "neo4j-red@1.service" "inactive" None)
           (skipn 7 t)
           (firstn 2 (skipn 7 t))
           (EvRsync "/data/graph.db/" "/data/graph.db.backup" None)
           (skipn 10 t)).
  - vm_compute. reflexivity.
  - reflexivity.
  - vm_compute. reflexivity.
  - reflexivity.
Defined.

Lemma runInner_uploads_the_created_archive_witness :
  usesReader 3%nat (EvIoCopy 2%nat 3%nat (0, None)).
Proof.
  set (t := snd (run (runInner 1%nat 2%nat "/data/graph.db/" "/data/graph.db.backup"
                               "neo4j_backup.tar.gz") calmWorld [])).
  assert (E : run (runInner 1%nat 2%nat "/data/graph.db/" "/data/graph.db.backup"
                            "neo4j_backup.tar.gz") calmWorld [] =
              (fst (run (runInner 1%nat 2%nat "/data/graph.db/" "/data/graph.db.backup"
                                  "neo4j_backup.tar.gz") calmWorld []), t)).
  { vm_compute. reflexivity. }
  apply (@runInner_uploads_the_created_archive calmWorld _ _ _ _ _ _ _ E
           (firstn 15 t) "/data/graph.db.backup" "neo4j_backup.tar.gz" 3%nat (skipn 16 t)).
  - vm_compute. reflexivity.
  - vm_compute. in_list.
Defined.

(** ** The archive name determines the second and the environment *)

Lemma digit_mod_inj a b : digit (a mod 10) = digit (b mod 10) -> a mod 10 = b mod 10.
Proof.
  unfold digit. intros H.
  apply (f_equal nat_of_ascii) in H.
  pose proof (Z.mod_pos_bound a 10 ltac:(lia)).
  pose proof (Z.mod_pos_bound b 10 ltac:(lia)).
  rewrite !nat_ascii_embedding in H by lia. lia.
Qed.

Lemma append_inv_tail (s1 s2 x : string) : (s1 ++ x = s2 ++ x)%string -> s1 = s2.
Proof.
  assert (L : forall a b, String.length (a ++ b) = (String.length a + String.length b)%nat).
  { induction a as [| c a IH]; intros b; simpl; [reflexivity | now rewrite IH]. }
  revert s2. induction s1 as [| c s1 IH]; intros [| d s2] H; simpl in H.
  - reflexivity.
  - apply (f_equal String.length) in H. simpl in H. rewrite L in H. lia.
  - apply (f_equal String.length) in H. simpl in H. rewrite L in H. lia.
  - injection H as -> H. f_equal. apply IH. exact H.
Qed.

Lemma String_inj c1 s1 c2 s2 : String c1 s1 = String c2 s2 -> c1 = c2 /\ s1 = s2.
Proof. intros H. injection H as Hc Hs. split; assumption. Qed.

(** All the digit equations of an equation between two spelled-out
    strings. *)
Ltac digits_of H :=
  repeat match type of H with
         | String _ _ = String _ _ =>
           let D := fresh "D" in
           apply String_inj in H; destruct H as [D H];
           try apply digit_mod_inj in D
         end.

(** X16. The archive name determines the time to the second and the
    environment tag: two calendar times (four-digit years) and two
    configurations that give the same archive name have the same year,
    month, day, hour, minute and second, and the same tag. *)
Theorem archiveNameAt_injective :
  forall (now1 now2 : Time) (cfg1 cfg2 : config),
    validTime now1 -> validTime now2 ->
    archiveNameAt now1 cfg1 = archiveNameAt now2 cfg2 ->
    now1 = now2 /\ env cfg1 = env cfg2.
Proof.
  intros [y1 mo1 d1 h1 mi1 s1] [y2 mo2 d2 h2 mi2 s2] cfg1 cfg2 V1 V2 H.
  rewrite (archiveNameAt_layout cfg1 V1), (archiveNameAt_layout cfg2 V2) in H.
  unfold validTime in V1, V2. cbn [Year Month Day Hour Minute Second] in V1, V2.
  unfold archiveLayout, timestampLayout, fourDigits, twoDigits in H.
  cbn [append Year Month Day Hour Minute Second] in H.
  digits_of H.
  apply append_inv_tail in H.
  split; [| exact H].
  assert (y1 = y2) by div_lia.
  assert (mo1 = mo2) by div_lia.
  assert (d1 = d2) by div_lia.
  assert (h1 = h2) by div_lia.
  assert (mi1 = mi2) by div_lia.
  assert (s1 = s2) by div_lia.
  subst. reflexivity.
Qed.

Lemma archiveNameAt_injective_witness :
  mkTime 2016 9 5 14 3 7 = mkTime 2016 9 5 14 3 7 /\ env test_cfg = env test_cfg.
Proof.
  apply (@archiveNameAt_injective (mkTime 2016 9 5 14 3 7) (mkTime 2016 9 5 14 3 7)
                                  test_cfg test_cfg).
  - unfold validTime. simpl. lia.
  - unfold validTime. simpl. lia.
  - reflexivity.
Defined.

(** ** main *)

Lemma runOuter_reports_no_completion_from (o : oracle) cfg h :
  post (runOuter cfg) o h
       (fun _ t => exists t', t = h ++ t' /\ existsb isCompletionLog t' = false).
Proof.
  apply post_shift.
  destruct (runOuter_facts (shift o h) cfg) as (_ & _ & H).
  unfold post. eexists. split; [reflexivity | exact H].
Qed.

(** X17. [main] logs "Backup process complete." only in runs that end
    with status 0.  When the cli library invoked the action and the status
    is 0, that entry is the last event of the run and the only one of its
    kind, and it carries the time elapsed since the clock reading with
    which [main] began.  When the library did not invoke the action,
    [main] returns after its start-up events. *)
Theorem main_reports_completion_only_on_success :
  forall o : oracle,
    (existsb isCompletionLog (snd (run main o [])) = true ->
     exitStatus (fst (run main o [])) = 0) /\
    (forall startTime cfg rest,
        snd (run main o []) = startUp startTime (Some cfg) ++ rest ->
        exitStatus (fst (run main o [])) = 0 ->
        exists before elapsed,
          rest =
          before ++ [EvTimeSince startTime elapsed;
                     EvLog Info "Backup process complete." [("duration", VInt elapsed)]] /\
          existsb isCompletionLog before = false) /\
    (forall startTime rest,
        snd (run main o []) = startUp startTime None ++ rest ->
        rest = [] /\ fst (run main o []) = Returned tt).
Proof.
  intros o. split; [| split].
  - destruct (run_main_cases o) as [[st Hrun] | (st & cfg & Hrun)]; rewrite Hrun.
    + reflexivity.
    + rewrite run_appAction.
      pose proof (runOuter_failures_logged_from o cfg (startUp st (Some cfg))) as Hlog.
      pose proof (runOuter_reports_no_completion_from o cfg (startUp st (Some cfg)))
        as Hquiet.
      unfold post in Hlog, Hquiet.
      destruct (run (runOuter cfg) o (startUp st (Some cfg))) as [[[msg |] | code] h'];
        cbn [fst snd] in *;
        destruct Hlog as (t' & Ht' & Hlog); destruct Hquiet as (t'' & Ht'' & Hquiet);
        rewrite Ht' in Ht''; apply app_inv_head in Ht''; subst t'' h'.
      * cbn [fst snd exitStatus].
        rewrite !existsb_app, Hquiet. simpl. discriminate.
      * reflexivity.
      * cbn [fst snd exitStatus].
        rewrite existsb_app, Hquiet. simpl. discriminate.
  - intros startTime cfg rest Ht Hstatus.
    pose proof (run_main_invoked o Ht) as Hrun.
    rewrite Hrun, run_appAction in Ht, Hstatus. clear Hrun.
    pose proof (runOuter_failures_logged_from o cfg (startUp startTime (Some cfg)))
      as Hlog.
    pose proof (runOuter_reports_no_completion_from o cfg (startUp startTime (Some cfg)))
      as Hquiet.
    unfold post in Hlog, Hquiet.
    destruct (run (runOuter cfg) o (startUp startTime (Some cfg)))
      as [[[msg |] | code] h'];
      cbn [fst snd] in *;
      destruct Hlog as (t' & Ht' & Hlog); destruct Hquiet as (t'' & Ht'' & Hquiet);
      rewrite Ht' in Ht''; apply app_inv_head in Ht''; subst t'' h'.
    + discriminate Hstatus.
    + cbn [fst snd] in Ht. rewrite <- !app_assoc in Ht.
      apply app_inv_head in Ht. subst rest.
      do 2 eexists. split; [reflexivity | exact Hquiet].
    + destruct Hlog as (-> & _). discriminate Hstatus.
  - intros startTime rest Ht.
    pose proof (run_main_not_invoked o Ht) as Hrun.
    rewrite Hrun in Ht |- *. cbn [fst snd] in *. split; [| reflexivity].
    rewrite <- (app_nil_r (startUp startTime None)) in Ht at 1.
    apply app_inv_head in Ht. symmetry. exact Ht.
Qed.

Lemma main_reports_completion_only_on_success_witness :
  let cfg := mkConfig "http://localhost:49153" EmptyString EmptyString EmptyString
                      "/data/graph.db/" "/data/graph.db.backup"
                      "s3-eu-west-1.amazonaws.com"
                      "com.ft.universalpublishing.backup-data" EmptyString in
  snd (run main calmWorld []) =
  startUp (mkTime 2016 9 5 14 3 7) (Some cfg) ++ skipn 3 (snd (run main calmWorld [])) /\
  exitStatus (fst (run main calmWorld [])) = 0 /\
  exists before elapsed,
    skipn 3 (snd (run main calmWorld [])) =
    before ++ [EvTimeSince (mkTime 2016 9 5 14 3 7) elapsed;
               EvLog Info "Backup process complete." [("duration", VInt elapsed)]] /\
    existsb isCompletionLog before = false.
Proof.
  intros cfg.
  assert (Ht : snd (run main calmWorld []) =
               startUp (mkTime 2016 9 5 14 3 7) (Some cfg) ++
               skipn 3 (snd (run main calmWorld []))) by (vm_compute; reflexivity).
  assert (Hstatus : exitStatus (fst (run main calmWorld [])) = 0)
    by (vm_compute; reflexivity).
  split; [exact Ht |]. split; [exact Hstatus |].
  apply (proj1 (proj2 (main_reports_completion_only_on_success calmWorld))
               (mkTime 2016 9 5 14 3 7) cfg _ Ht Hstatus).
Defined.

(** ** uploadToS3, once more *)

(** X18. [uploadToS3] begins with the copy from the reader into the
    bucket writer and returns the error of that copy and no other: what the
    two [Close] calls answer does not reach the caller.  The reader is
    closed exactly when the copy went through. *)
Theorem uploadToS3_returns_the_copy_error :
  forall (o : oracle) (bucketWriter : WriteCloser) (pipeReader : PipeReader),
  exists n err rest,
    snd (run (uploadToS3 bucketWriter pipeReader) o []) =
    EvIoCopy bucketWriter pipeReader (n, err) :: rest /\
    fst (run (uploadToS3 bucketWriter pipeReader) o []) = Returned err /\
    existsb isIoCopy rest = false /\
    existsb isReaderClose rest = match err with None => true | Some _ => false end.
Proof.
  intros o bw pr. enter. execute.
  all: do 3 eexists; repeat split; reflexivity.
Qed.

(** The close of the bucket writer fails, and [uploadToS3] returns nil. *)
Example uploadToS3_ignores_close_error :
  run (uploadToS3 2%nat 3%nat) (closeFailsWorld "upload incomplete") [] =
  (Returned None,
   [EvIoCopy 2%nat 3%nat (0, None);
    EvReaderClose 3%nat None;
    EvWriterClose 2%nat (Some "upload incomplete")]).
Proof. reflexivity. Qed.
